(** * Dual-tier memory layer: a shallow embedding of
      [memory/memory_manager.py], [memory/short_term.py] and
      [memory/long_term.py].

    The Python code talks to two external services, a Redis server (the
    short-term tier) and a ChromaDB collection (the long-term tier), reads the
    wall clock and writes to a logger.  All four are components of an explicit
    [world] that every operation threads through a small state-and-exception
    monad.  Python values that cross the API are embedded as [pyval]. *)

From Stdlib Require Import List String Ascii Bool Arith NArith ZArith Lia.
From Stdlib Require Import DecimalString.
Import ListNotations.
Open Scope string_scope.
Open Scope nat_scope.

Set Implicit Arguments.
#[global] Set Warnings "-register-all".

(** ** Python values *)

Module Py.

(** Dictionary keys: [str] and [bytes] keys never compare equal in Python,
    which matters for what [hgetall] returns. *)
Inductive pykey : Type :=
| KStr (s : string)
| KBytes (s : string).

Inductive pyval : Type :=
| VNone
| VBool (b : bool)
| VInt (z : Z)
| VStr (s : string)
| VBytes (s : string)
| VList (l : list pyval)
| VDict (d : list (pykey * pyval)).

(** A [dict] keeps insertion order. *)
Definition pydict : Type := list (pykey * pyval).

Definition pykey_eqb (a b : pykey) : bool :=
  match a, b with
  | KStr x, KStr y => String.eqb x y
  | KBytes x, KBytes y => String.eqb x y
  | _, _ => false
  end.

(** [d.get(k)] as an option; [d.get(k, default)] is [dget_or]. *)
Fixpoint dget (k : pykey) (d : pydict) : option pyval :=
  match d with
  | [] => None
  | (k', v) :: d' => if pykey_eqb k k' then Some v else dget k d'
  end.

Definition dget_or (k : pykey) (dflt : pyval) (d : pydict) : pyval :=
  match dget k d with Some v => v | None => dflt end.

(** [k in d] *)
Definition dmem (k : pykey) (d : pydict) : bool :=
  match dget k d with Some _ => true | None => false end.

(** [d[k] = v]: an existing key keeps its position, a new key goes last. *)
Fixpoint dset (k : pykey) (v : pyval) (d : pydict) : pydict :=
  match d with
  | [] => [(k, v)]
  | (k', v') :: d' =>
      if pykey_eqb k k' then (k, v) :: d' else (k', v') :: dset k v d'
  end.

(** [{**d1, **d2}]: the entries of [d2] are assigned into [d1] in order. *)
Definition dmerge (d1 d2 : pydict) : pydict :=
  fold_left (fun acc kv => dset (fst kv) (snd kv) acc) d2 d1.

(** Truth value testing, as used by [if x], [not x] and [x or y]. *)
Definition truthy (v : pyval) : bool :=
  match v with
  | VNone => false
  | VBool b => b
  | VInt z => negb (Z.eqb z 0)
  | VStr s => negb (String.eqb s "")
  | VBytes s => negb (String.eqb s "")
  | VList l => match l with [] => false | _ => true end
  | VDict d => match d with [] => false | _ => true end
  end.

Definition is_dict (v : pyval) : bool :=
  match v with VDict _ => true | _ => false end.

Definition is_none (v : pyval) : bool :=
  match v with VNone => true | _ => false end.

(** Structural equality, Python's [==] on the embedded values (an [int] and a
    [bool] are kept apart, nothing in the modelled code compares the two). *)
Fixpoint pyval_eqb (a b : pyval) : bool :=
  match a, b with
  | VNone, VNone => true
  | VBool x, VBool y => Bool.eqb x y
  | VInt x, VInt y => Z.eqb x y
  | VStr x, VStr y => String.eqb x y
  | VBytes x, VBytes y => String.eqb x y
  | VList x, VList y =>
      (fix go (l1 l2 : list pyval) : bool :=
         match l1, l2 with
         | [], [] => true
         | u :: l1', w :: l2' => pyval_eqb u w && go l1' l2'
         | _, _ => false
         end) x y
  | VDict x, VDict y =>
      (fix go (l1 l2 : pydict) : bool :=
         match l1, l2 with
         | [], [] => true
         | (k1, u) :: l1', (k2, w) :: l2' =>
             pykey_eqb k1 k2 && pyval_eqb u w && go l1' l2'
         | _, _ => false
         end) x y
  | _, _ => false
  end.

(** [str(z)] for an [int]. *)
Definition str_of_Z (z : Z) : string := NilZero.string_of_int (Z.to_int z).

(** [str(v)], as an f-string renders a value.  Only the [str] and [int] cases
    can be observed through the modelled code: every other value is refused by
    the Redis client before the formatted identifier is returned.  Containers
    are rendered without the quoting rules of [repr]. *)
Fixpoint py_str (v : pyval) : string :=
  match v with
  | VNone => "None"
  | VBool true => "True"
  | VBool false => "False"
  | VInt z => str_of_Z z
  | VStr s => s
  | VBytes s => "b'" ++ s ++ "'"
  | VList l =>
      "[" ++ (fix go (l : list pyval) : string :=
                match l with
                | [] => ""
                | [x] => py_str x
                | x :: l' => py_str x ++ ", " ++ go l'
                end) l ++ "]"
  | VDict d =>
      "{" ++ (fix go (d : pydict) : string :=
                match d with
                | [] => ""
                | (k, x) :: d' =>
                    (match k with KStr s => "'" ++ s ++ "'"
                                | KBytes s => "b'" ++ s ++ "'" end)
                    ++ ": " ++ py_str x
                    ++ (match d' with [] => "" | _ => ", " ++ go d' end)
                end) d ++ "}"
  end.

(** Exceptions the modelled code can see. *)
Inductive exn : Type :=
| ValueError (msg : string)
| AttributeError
| TypeError
| KeyError (k : string)
| JSONDecodeError
| DataError            (* redis-py: value cannot be encoded *)
| ResponseError        (* redis: WRONGTYPE *)
| ConnectionError.     (* either store unreachable *)

Inductive result (A : Type) : Type :=
| Ok (a : A)
| Raise (e : exn).
Arguments Ok {A} a.
Arguments Raise {A} e.

(** [v.get(k)]: only a [dict] has the method. *)
Definition py_get (v : pyval) (k : string) : result pyval :=
  match v with
  | VDict d => Ok (dget_or (KStr k) VNone d)
  | _ => Raise AttributeError
  end.

End Py.
Export Py.

(** ** [json.dumps] and [json.loads]

    The short-term tier keeps the metadata of a record as JSON text.  The
    printer follows [json.dumps] with its default separators and
    [ensure_ascii]; the reader accepts the JSON the printer can produce
    (objects, arrays, strings with escapes, integers, [true], [false],
    [null]); numbers with a fraction or an exponent are outside the embedded
    values and are refused. *)

Module Json.

Definition hex_digit (n : nat) : ascii :=
  if n <? 10 then ascii_of_nat (48 + n) else ascii_of_nat (87 + n).

Definition hex_value (c : ascii) : option nat :=
  let n := nat_of_ascii c in
  if (48 <=? n) && (n <=? 57) then Some (n - 48)
  else if (97 <=? n) && (n <=? 102) then Some (n - 87)
  else if (65 <=? n) && (n <=? 70) then Some (n - 55)
  else None.

(** One character inside a JSON string literal. *)
Definition escape_char (c : ascii) : string :=
  let n := nat_of_ascii c in
  if n =? 34 then String "\" (String (ascii_of_nat 34) "")
  else if n =? 92 then "\\"
  else if n =? 10 then "\n"
  else if n =? 13 then "\r"
  else if n =? 9 then "\t"
  else if n =? 8 then "\b"
  else if n =? 12 then "\f"
  else if (n <? 32) || (126 <? n) then
    String "\" (String "u" (String "0" (String "0"
      (String (hex_digit (n / 16)) (String (hex_digit (n mod 16)) "")))))
  else String c "".

Fixpoint escape (s : string) : string :=
  match s with
  | EmptyString => ""
  | String c s' => escape_char c ++ escape s'
  end.

Definition quote (s : string) : string :=
  String (ascii_of_nat 34) (escape s ++ String (ascii_of_nat 34) "").

(** [json.dumps(v)]; [bytes] values and [bytes] keys are not serialisable. *)
Fixpoint dumps (v : pyval) : result string :=
  match v with
  | VNone => Ok "null"
  | VBool true => Ok "true"
  | VBool false => Ok "false"
  | VInt z => Ok (str_of_Z z)
  | VStr s => Ok (quote s)
  | VBytes _ => Raise TypeError
  | VList l =>
      match (fix go (l : list pyval) : result string :=
               match l with
               | [] => Ok ""
               | x :: l' =>
                   match dumps x with
                   | Raise e => Raise e
                   | Ok sx =>
                       match l' with
                       | [] => Ok sx
                       | _ => match go l' with
                              | Raise e => Raise e
                              | Ok sl => Ok (sx ++ ", " ++ sl)
                              end
                       end
                   end
               end) l with
      | Raise e => Raise e
      | Ok body => Ok ("[" ++ body ++ "]")
      end
  | VDict d =>
      match (fix go (d : pydict) : result string :=
               match d with
               | [] => Ok ""
               | (KBytes _, _) :: _ => Raise TypeError
               | (KStr k, x) :: d' =>
                   match dumps x with
                   | Raise e => Raise e
                   | Ok sx =>
                       match d' with
                       | [] => Ok (quote k ++ ": " ++ sx)
                       | _ => match go d' with
                              | Raise e => Raise e
                              | Ok sd => Ok (quote k ++ ": " ++ sx ++ ", " ++ sd)
                              end
                       end
                   end
               end) d with
      | Raise e => Raise e
      | Ok body => Ok ("{" ++ body ++ "}")
      end
  end.

(** *** Reader *)

Definition is_ws (c : ascii) : bool :=
  let n := nat_of_ascii c in
  (n =? 32) || (n =? 9) || (n =? 10) || (n =? 13).

Definition is_digit (c : ascii) : bool :=
  let n := nat_of_ascii c in (48 <=? n) && (n <=? 57).

Fixpoint skip_ws (s : string) : string :=
  match s with
  | String c s' => if is_ws c then skip_ws s' else s
  | EmptyString => s
  end.

(** The body of a string literal after the opening quote: the decoded text
    and what follows the closing quote. *)
Fixpoint read_string (s : string) (fuel : nat) : option (string * string) :=
  match fuel with
  | O => None
  | S fuel' =>
      match s with
      | EmptyString => None
      | String c s' =>
          let n := nat_of_ascii c in
          if n =? 34 then Some ("", s')
          else if n =? 92 then
            match s' with
            | String e s'' =>
                let simple (ch : nat) :=
                  match read_string s'' fuel' with
                  | Some (t, r) => Some (String (ascii_of_nat ch) t, r)
                  | None => None
                  end in
                let m := nat_of_ascii e in
                if m =? 34 then simple 34
                else if m =? 92 then simple 92
                else if m =? 47 then simple 47
                else if m =? 110 then simple 10
                else if m =? 114 then simple 13
                else if m =? 116 then simple 9
                else if m =? 98 then simple 8
                else if m =? 102 then simple 12
                else if m =? 117 then
                  match s'' with
                  | String a (String b (String h (String l r0))) =>
                      match hex_value a, hex_value b, hex_value h, hex_value l with
                      | Some 0, Some 0, Some hi, Some lo =>
                          match read_string r0 fuel' with
                          | Some (t, r) =>
                              Some (String (ascii_of_nat (16 * hi + lo)) t, r)
                          | None => None
                          end
                      | _, _, _, _ => None
                      end
                  | _ => None
                  end
                else None
            | EmptyString => None
            end
          else if n <? 32 then None
          else
            match read_string s' fuel' with
            | Some (t, r) => Some (String c t, r)
            | None => None
            end
      end
  end.

Fixpoint take_digits (s : string) : string * string :=
  match s with
  | String c s' =>
      if is_digit c then let (d, r) := take_digits s' in (String c d, r)
      else ("", s)
  | EmptyString => ("", "")
  end.

Definition starts_fraction (s : string) : bool :=
  match s with
  | String c _ =>
      let n := nat_of_ascii c in (n =? 46) || (n =? 101) || (n =? 69)
  | EmptyString => false
  end.

Definition read_int (s : string) : option (Z * string) :=
  let (neg, s1) :=
    match s with
    | String c s' => if nat_of_ascii c =? 45 then (true, s') else (false, s)
    | EmptyString => (false, s)
    end in
  let (ds, r) := take_digits s1 in
  match ds with
  | EmptyString => None
  | String d0 ds' =>
      if ((nat_of_ascii d0 =? 48) && negb (String.eqb ds' "")) || starts_fraction r
      then None
      else
        match NilZero.int_of_string ds with
        | Some i => let z := Z.of_int i in Some (if neg then Z.opp z else z, r)
        | None => None
        end
  end.

Definition strip_prefix (p s : string) : option string :=
  if String.prefix p s
  then Some (String.substring (String.length p) (String.length s - String.length p) s)
  else None.

(** A value, then the rest of the input. *)
Fixpoint read_value (fuel : nat) (s : string) : option (pyval * string) :=
  match fuel with
  | O => None
  | S fuel' =>
      match skip_ws s with
      | EmptyString => None
      | String c s' as s0 =>
          let n := nat_of_ascii c in
          if n =? 34 then
            match read_string s' (S (String.length s')) with
            | Some (t, r) => Some (VStr t, r)
            | None => None
            end
          else if n =? 91 then
            match skip_ws s' with
            | String c1 r1 as s1 =>
                if nat_of_ascii c1 =? 93 then Some (VList [], r1)
                else match read_items fuel' s1 with
                     | Some (l, r) => Some (VList l, r)
                     | None => None
                     end
            | EmptyString => None
            end
          else if n =? 123 then
            match skip_ws s' with
            | String c1 r1 as s1 =>
                if nat_of_ascii c1 =? 125 then Some (VDict [], r1)
                else match read_members fuel' [] s1 with
                     | Some (d, r) => Some (VDict d, r)
                     | None => None
                     end
            | EmptyString => None
            end
          else
            match strip_prefix "null" s0, strip_prefix "true" s0,
                  strip_prefix "false" s0 with
            | Some r, _, _ => Some (VNone, r)
            | _, Some r, _ => Some (VBool true, r)
            | _, _, Some r => Some (VBool false, r)
            | _, _, _ =>
                match read_int s0 with
                | Some (z, r) => Some (VInt z, r)
                | None => None
                end
            end
      end
  end

with read_items (fuel : nat) (s : string) : option (list pyval * string) :=
  match fuel with
  | O => None
  | S fuel' =>
      match read_value fuel' s with
      | None => None
      | Some (v, r) =>
          match skip_ws r with
          | String c r' =>
              let n := nat_of_ascii c in
              if n =? 93 then Some ([v], r')
              else if n =? 44 then
                match read_items fuel' r' with
                | Some (l, r2) => Some (v :: l, r2)
                | None => None
                end
              else None
          | EmptyString => None
          end
      end
  end

with read_members (fuel : nat) (acc : pydict) (s : string)
  : option (pydict * string) :=
  match fuel with
  | O => None
  | S fuel' =>
      match skip_ws s with
      | String q s1 =>
          if nat_of_ascii q =? 34 then
            match read_string s1 (S (String.length s1)) with
            | None => None
            | Some (k, r0) =>
                match skip_ws r0 with
                | String colon r1 =>
                    if nat_of_ascii colon =? 58 then
                      match read_value fuel' r1 with
                      | None => None
                      | Some (v, r) =>
                          match skip_ws r with
                          | String c r' =>
                              let n := nat_of_ascii c in
                              if n =? 125 then Some (dset (KStr k) v acc, r')
                              else if n =? 44 then
                                read_members fuel' (dset (KStr k) v acc) r'
                              else None
                          | EmptyString => None
                          end
                      end
                    else None
                | EmptyString => None
                end
            end
          else None
      | EmptyString => None
      end
  end.

(** [json.loads(s)]: one value and nothing but white space after it. *)
Definition loads (s : string) : result pyval :=
  match read_value (S (String.length s)) s with
  | Some (v, r) =>
      match skip_ws r with
      | EmptyString => Ok v
      | _ => Raise JSONDecodeError
      end
  | None => Raise JSONDecodeError
  end.

End Json.

(** ** [datetime]

    A naive [datetime] is its seven calendar fields.  [isoformat] prints
    [YYYY-MM-DDTHH:MM:SS], followed by [.ffffff] when the microsecond is not
    zero.  [fromisoformat] reads back these two shapes and checks the ranges
    of the fields; strings with a UTC offset, which Python would turn into
    aware values, are outside the model and are refused like any other
    malformed text. *)

Module Datetime.

Record datetime : Type := mkDatetime {
  year : N; month : N; day : N;
  hour : N; minute : N; second : N;
  microsecond : N
}.

Local Open Scope N_scope.

Definition is_leap (y : N) : bool :=
  ((y mod 4 =? 0) && negb (y mod 100 =? 0)) || (y mod 400 =? 0).

Definition days_in_month (y m : N) : N :=
  match m with
  | 2 => if is_leap y then 29 else 28
  | 4 | 6 | 9 | 11 => 30
  | _ => 31
  end.

(** The values the [datetime] constructor accepts. *)
Definition valid (d : datetime) : bool :=
  (1 <=? year d) && (year d <=? 9999) &&
  (1 <=? month d) && (month d <=? 12) &&
  (1 <=? day d) && (day d <=? days_in_month (year d) (month d)) &&
  (hour d <? 24) && (minute d <? 60) && (second d <? 60) &&
  (microsecond d <? 1000000).

Definition digit (n : N) : ascii := ascii_of_N (48 + n mod 10).

(** [n] in decimal on exactly [w] digits (the low [w] digits of [n]). *)
Fixpoint pad (w : nat) (n : N) : string :=
  match w with
  | O => ""
  | S w' => pad w' (n / 10) ++ String (digit n) ""
  end.

Definition isoformat (d : datetime) : string :=
  pad 4%nat (year d) ++ "-" ++ pad 2%nat (month d) ++ "-" ++ pad 2%nat (day d) ++ "T" ++
  pad 2%nat (hour d) ++ ":" ++ pad 2%nat (minute d) ++ ":" ++ pad 2%nat (second d) ++
  (if microsecond d =? 0 then "" else "." ++ pad 6%nat (microsecond d)).

Definition digit_value (c : ascii) : option N :=
  let n := N_of_ascii c in
  if (48 <=? n) && (n <=? 57) then Some (n - 48) else None.

(** Reads exactly [w] digits; the number and the rest. *)
Fixpoint read_digits (w : nat) (acc : N) (s : string) : option (N * string) :=
  match w with
  | O => Some (acc, s)
  | S w' =>
      match s with
      | String c s' =>
          match digit_value c with
          | Some v => read_digits w' (10 * acc + v) s'
          | None => None
          end
      | EmptyString => None
      end
  end.

Definition expect (c : ascii) (s : string) : option string :=
  match s with
  | String c' s' => if Ascii.eqb c c' then Some s' else None
  | EmptyString => None
  end.

Definition obind {A B} (o : option A) (f : A -> option B) : option B :=
  match o with Some a => f a | None => None end.

(** [datetime.fromisoformat(s)]; [None] stands for [ValueError]. *)
Definition fromisoformat (s : string) : option datetime :=
  obind (read_digits 4%nat 0 s) (fun '(y, s) =>
  obind (expect "-" s) (fun s =>
  obind (read_digits 2%nat 0 s) (fun '(mo, s) =>
  obind (expect "-" s) (fun s =>
  obind (read_digits 2%nat 0 s) (fun '(dd, s) =>
  obind (expect "T" s) (fun s =>
  obind (read_digits 2%nat 0 s) (fun '(hh, s) =>
  obind (expect ":" s) (fun s =>
  obind (read_digits 2%nat 0 s) (fun '(mi, s) =>
  obind (expect ":" s) (fun s =>
  obind (read_digits 2%nat 0 s) (fun '(ss, s) =>
  obind (match s with
         | EmptyString => Some 0
         | _ => obind (expect "." s) (fun s =>
                obind (read_digits 6%nat 0 s) (fun '(us, s) =>
                match s with EmptyString => Some us | _ => None end))
         end) (fun us =>
  let d := mkDatetime y mo dd hh mi ss us in
  if valid d then Some d else None)))))))))))).

(** Naive values compare field by field, most significant first. *)
Definition key (d : datetime) : list N :=
  [year d; month d; day d; hour d; minute d; second d; microsecond d].

Fixpoint lex_ltb (a b : list N) : bool :=
  match a, b with
  | x :: a', y :: b' => (x <? y) || ((x =? y) && lex_ltb a' b')
  | [], _ :: _ => true
  | _, _ => false
  end.

Definition ltb (a b : datetime) : bool := lex_ltb (key a) (key b).

End Datetime.

(** ** The Redis server behind [redis_client]

    The client library and the server are one component here.  A command
    first needs the connection: [faults] is the schedule of connection
    outcomes, one entry consumed per command, [true] for a command that fails
    with [ConnectionError] and has no effect (an exhausted schedule means a
    healthy connection).  [decode_responses] is the client option chosen
    through the connection URL; [redis.from_url] leaves it off unless the URL
    asks for it, and replies are then [bytes].

    Expiry deadlines set by [expire] are recorded with the key.  No time
    passes between the operations of one scenario, so a recorded deadline
    never fires inside the model. *)

Module Redis.

Inductive rvalue : Type :=
| RHash (fields : list (string * string))
| RList (items : list string).

Record entry : Type := mkEntry { e_val : rvalue; e_ttl : option Z }.

Record server : Type := mkServer {
  decode_responses : bool;
  keyspace : list (string * entry);
  faults : list bool
}.

Definition cmd (A : Type) : Type := server -> result A * server.

Fixpoint lookup {V} (k : string) (l : list (string * V)) : option V :=
  match l with
  | [] => None
  | (k', v) :: l' => if String.eqb k k' then Some v else lookup k l'
  end.

(** Replace the binding of [k], or add it after the existing ones. *)
Fixpoint update {V} (k : string) (v : V) (l : list (string * V)) : list (string * V) :=
  match l with
  | [] => [(k, v)]
  | (k', v') :: l' =>
      if String.eqb k k' then (k, v) :: l' else (k', v') :: update k v l'
  end.

Fixpoint remove {V} (k : string) (l : list (string * V)) : list (string * V) :=
  match l with
  | [] => []
  | (k', v') :: l' =>
      if String.eqb k k' then remove k l' else (k', v') :: remove k l'
  end.

Definition set_keyspace (s : server) (ks : list (string * entry)) : server :=
  mkServer (decode_responses s) ks (faults s).

(** Take the connection for one command. *)
Definition connect (s : server) : result unit * server :=
  (if hd false (faults s) then Raise ConnectionError else Ok tt,
   mkServer (decode_responses s) (keyspace s) (tl (faults s))).

(** The next [n] commands find the connection. *)
Definition healthy (n : nat) (s : server) : bool :=
  forallb negb (firstn n (faults s)).

(** How the client puts an argument on the wire: [bytes] and [str] as they
    are, an [int] in decimal; a [bool], [None] or a container is refused. *)
Definition encode (v : pyval) : result string :=
  match v with
  | VStr s => Ok s
  | VBytes s => Ok s
  | VInt z => Ok (str_of_Z z)
  | _ => Raise DataError
  end.

Fixpoint encode_mapping (m : list (string * pyval)) : result (list (string * string)) :=
  match m with
  | [] => Ok []
  | (f, v) :: m' =>
      match encode v with
      | Raise e => Raise e
      | Ok s =>
          match encode_mapping m' with
          | Raise e => Raise e
          | Ok r => Ok ((f, s) :: r)
          end
      end
  end.

Fixpoint encode_all (l : list pyval) : result (list string) :=
  match l with
  | [] => Ok []
  | v :: l' =>
      match encode v with
      | Raise e => Raise e
      | Ok s => match encode_all l' with
                | Raise e => Raise e
                | Ok r => Ok (s :: r)
                end
      end
  end.

(** A reply string as the client hands it to Python. *)
Definition reply (s : server) (x : string) : pyval :=
  if decode_responses s then VStr x else VBytes x.

Definition reply_key (s : server) (x : string) : pykey :=
  if decode_responses s then KStr x else KBytes x.

(** [hset(name, mapping=m)] *)
Definition hset (name : string) (m : list (string * pyval)) : cmd unit :=
  fun s =>
    match connect s with
    | (Raise e, s1) => (Raise e, s1)
    | (Ok _, s1) =>
        match encode_mapping m with
        | Raise e => (Raise e, s1)
        | Ok fs =>
            match lookup name (keyspace s1) with
            | Some (mkEntry (RList _) _) => (Raise ResponseError, s1)
            | Some (mkEntry (RHash old) ttl) =>
                let h := fold_left (fun acc fv => update (fst fv) (snd fv) acc) fs old in
                (Ok tt, set_keyspace s1 (update name (mkEntry (RHash h) ttl) (keyspace s1)))
            | None =>
                let h := fold_left (fun acc fv => update (fst fv) (snd fv) acc) fs [] in
                (Ok tt, set_keyspace s1 (update name (mkEntry (RHash h) None) (keyspace s1)))
            end
        end
    end.

(** [expire(name, seconds)]: a deadline that is not in the future deletes the
    key at once. *)
Definition expire (name : string) (seconds : Z) : cmd unit :=
  fun s =>
    match connect s with
    | (Raise e, s1) => (Raise e, s1)
    | (Ok _, s1) =>
        match lookup name (keyspace s1) with
        | None => (Ok tt, s1)
        | Some en =>
            if (seconds <=? 0)%Z
            then (Ok tt, set_keyspace s1 (remove name (keyspace s1)))
            else (Ok tt, set_keyspace s1
                           (update name (mkEntry (e_val en) (Some seconds)) (keyspace s1)))
        end
    end.

(** [hgetall(name)]: a [dict], empty when the key does not exist. *)
Definition hgetall (name : string) : cmd pydict :=
  fun s =>
    match connect s with
    | (Raise e, s1) => (Raise e, s1)
    | (Ok _, s1) =>
        match lookup name (keyspace s1) with
        | None => (Ok [], s1)
        | Some (mkEntry (RHash fs) _) =>
            (Ok (map (fun fv => (reply_key s1 (fst fv), reply s1 (snd fv))) fs), s1)
        | Some (mkEntry (RList _) _) => (Raise ResponseError, s1)
        end
    end.

(** [keys(prefix + "*")]: the keys that start with [prefix].  The server
    promises no order; the model reports them in keyspace order. *)
Definition keys (prefix : string) : cmd (list pyval) :=
  fun s =>
    match connect s with
    | (Raise e, s1) => (Raise e, s1)
    | (Ok _, s1) =>
        (Ok (map (reply s1)
               (filter (String.prefix prefix) (map fst (keyspace s1)))), s1)
    end.

(** [lpush(name, v)] *)
Definition lpush (name : string) (v : pyval) : cmd unit :=
  fun s =>
    match connect s with
    | (Raise e, s1) => (Raise e, s1)
    | (Ok _, s1) =>
        match encode v with
        | Raise e => (Raise e, s1)
        | Ok x =>
            match lookup name (keyspace s1) with
            | Some (mkEntry (RHash _) _) => (Raise ResponseError, s1)
            | Some (mkEntry (RList l) ttl) =>
                (Ok tt, set_keyspace s1 (update name (mkEntry (RList (x :: l)) ttl) (keyspace s1)))
            | None =>
                (Ok tt, set_keyspace s1 (update name (mkEntry (RList [x]) None) (keyspace s1)))
            end
        end
    end.

(** The inclusive slice [start .. stop] of a list of length [n], with
    negative indices counted from the end. *)
Definition slice {A} (start stop : Z) (l : list A) : list A :=
  let n := Z.of_nat (List.length l) in
  let lo := Z.max 0 (if (start <? 0)%Z then n + start else start)%Z in
  let hi := Z.min (n - 1) (if (stop <? 0)%Z then n + stop else stop)%Z in
  if (hi <? lo)%Z then []
  else firstn (Z.to_nat (hi - lo + 1)) (skipn (Z.to_nat lo) l).

(** [ltrim(name, start, stop)]: a list trimmed to nothing is removed. *)
Definition ltrim (name : string) (start stop : Z) : cmd unit :=
  fun s =>
    match connect s with
    | (Raise e, s1) => (Raise e, s1)
    | (Ok _, s1) =>
        match lookup name (keyspace s1) with
        | None => (Ok tt, s1)
        | Some (mkEntry (RHash _) _) => (Raise ResponseError, s1)
        | Some (mkEntry (RList l) ttl) =>
            match slice start stop l with
            | [] => (Ok tt, set_keyspace s1 (remove name (keyspace s1)))
            | l' => (Ok tt, set_keyspace s1
                             (update name (mkEntry (RList l') ttl) (keyspace s1)))
            end
        end
    end.

(** [lrange(name, start, stop)] *)
Definition lrange (name : string) (start stop : Z) : cmd (list pyval) :=
  fun s =>
    match connect s with
    | (Raise e, s1) => (Raise e, s1)
    | (Ok _, s1) =>
        match lookup name (keyspace s1) with
        | None => (Ok [], s1)
        | Some (mkEntry (RHash _) _) => (Raise ResponseError, s1)
        | Some (mkEntry (RList l) _) => (Ok (map (reply s1) (slice start stop l)), s1)
        end
    end.

(** [delete] of several keys at once *)
Definition delete (names : list pyval) : cmd unit :=
  fun s =>
    match connect s with
    | (Raise e, s1) => (Raise e, s1)
    | (Ok _, s1) =>
        match encode_all names with
        | Raise e => (Raise e, s1)
        | Ok ks =>
            (Ok tt, set_keyspace s1 (fold_left (fun acc k => remove k acc) ks (keyspace s1)))
        end
    end.

End Redis.

(** ** The ChromaDB collection [long_term_memory]

    Documents are kept in the order they were added.  [get] reports matches in
    that order; [query] ranks the documents that pass the [where] filter by
    the distance between the query text and the document under the
    collection's embedding function, which is a component of the collection
    ([distance]); equal distances keep the order of addition.  [faults] is the
    connection schedule, as for Redis. *)

Module Chroma.

Record doc : Type := mkDoc {
  doc_id : string;
  doc_text : string;
  doc_meta : option pydict
}.

Record collection : Type := mkCollection {
  docs : list doc;
  distance : string -> string -> N;
  faults : list bool
}.

Definition cmd (A : Type) : Type := collection -> result A * collection.

Definition connect (c : collection) : result unit * collection :=
  (if hd false (faults c) then Raise ConnectionError else Ok tt,
   mkCollection (docs c) (distance c) (tl (faults c))).

Definition healthy (n : nat) (c : collection) : bool :=
  forallb negb (firstn n (faults c)).

(** Metadata the collection accepts: a non-empty [dict] with [str] keys and
    [str], [int] or [bool] values. *)
Definition scalar (v : pyval) : bool :=
  match v with
  | VStr _ | VInt _ | VBool _ => true
  | _ => false
  end.

Definition valid_metadata (m : pydict) : bool :=
  match m with
  | [] => false
  | _ => forallb (fun kv => match fst kv with
                            | KStr _ => scalar (snd kv)
                            | KBytes _ => false
                            end) m
  end.

Definition has_id (i : string) (c : collection) : bool :=
  existsb (fun d => String.eqb (doc_id d) i) (docs c).

(** [add(ids=[i], documents=[document], metadatas=[m])]: arguments are
    validated first; an identifier that is already present is skipped. *)
Definition add (i : string) (document : pyval) (m : pydict) : cmd unit :=
  fun c =>
    match document with
    | VStr text =>
        if valid_metadata m then
          match connect c with
          | (Raise e, c1) => (Raise e, c1)
          | (Ok _, c1) =>
              if has_id i c1 then (Ok tt, c1)
              else (Ok tt, mkCollection (docs c1 ++ [mkDoc i text (Some m)])
                             (distance c1) (faults c1))
          end
        else (Raise (ValueError "invalid metadata"), c)
    | _ => (Raise (ValueError "invalid document"), c)
    end.

(** [where={"user_id": u}] *)
Definition owned_by (u : pyval) (d : doc) : bool :=
  match doc_meta d with
  | Some m => match dget (KStr "user_id") m with
              | Some v => pyval_eqb v u
              | None => false
              end
  | None => false
  end.

(** [get(ids=[i])] *)
Definition get_ids (i : string) : cmd (list doc) :=
  fun c =>
    match connect c with
    | (Raise e, c1) => (Raise e, c1)
    | (Ok _, c1) => (Ok (filter (fun d => String.eqb (doc_id d) i) (docs c1)), c1)
    end.

(** [get(where={"user_id": u}, limit=n)]; [None] for no limit. *)
Definition get_where (u : pyval) (limit : option nat) : cmd (list doc) :=
  fun c =>
    match connect c with
    | (Raise e, c1) => (Raise e, c1)
    | (Ok _, c1) =>
        let hits := filter (owned_by u) (docs c1) in
        (Ok (match limit with Some n => firstn n hits | None => hits end), c1)
    end.

(** Insertion into a list sorted by increasing [rank]; [x] was added before
    the elements of [l] and stays in front of those of equal rank. *)
Fixpoint insert_by {A} (rank : A -> N) (x : A) (l : list A) : list A :=
  match l with
  | [] => [x]
  | y :: l' => if (rank y <? rank x)%N then y :: insert_by rank x l' else x :: l
  end.

Definition sort_by {A} (rank : A -> N) (l : list A) : list A :=
  fold_right (insert_by rank) [] l.

(** [query(query_texts=[q], n_results=n, where={"user_id": u})] *)
Definition query (q : string) (n : nat) (u : pyval) : cmd (list doc) :=
  fun c =>
    match connect c with
    | (Raise e, c1) => (Raise e, c1)
    | (Ok _, c1) =>
        let hits := filter (owned_by u) (docs c1) in
        (Ok (firstn n (sort_by (fun d => distance c1 q (doc_text d)) hits)), c1)
    end.

(** [delete(ids=l)] *)
Definition delete (l : list string) : cmd unit :=
  fun c =>
    match connect c with
    | (Raise e, c1) => (Raise e, c1)
    | (Ok _, c1) =>
        (Ok tt, mkCollection
                  (filter (fun d => negb (existsb (String.eqb (doc_id d)) l)) (docs c1))
                  (distance c1) (faults c1))
    end.

End Chroma.

(** ** The world and the monad of the Python code *)

Module World.

Inductive event : Type :=
| LogInfo (msg : string)
| LogError (msg : string) (e : exn)
| Print (msg : string).

Record world : Type := mkWorld {
  redis : Redis.server;
  chroma : Chroma.collection;
  clock : nat -> Datetime.datetime;   (* the successive readings of the wall clock *)
  ticks : nat;                        (* how many readings were taken *)
  log : list event                    (* newest first *)
}.

(** A computation: it may change the world and either returns or raises. *)
Definition M (A : Type) : Type := world -> result A * world.

Definition ret {A} (a : A) : M A := fun w => (Ok a, w).

Definition raise {A} (e : exn) : M A := fun w => (Raise e, w).

Definition bind {A B} (c : M A) (k : A -> M B) : M B :=
  fun w =>
    match c w with
    | (Ok a, w1) => k a w1
    | (Raise e, w1) => (Raise e, w1)
    end.

(** [try: c  except Exception as e: h e] *)
Definition try_except {A} (c : M A) (h : exn -> M A) : M A :=
  fun w =>
    match c w with
    | (Ok a, w1) => (Ok a, w1)
    | (Raise e, w1) => h e w1
    end.

Definition lift {A} (r : result A) : M A := fun w => (r, w).

Definition on_redis {A} (c : Redis.cmd A) : M A :=
  fun w =>
    let (r, s) := c (redis w) in
    (r, mkWorld s (chroma w) (clock w) (ticks w) (log w)).

Definition on_chroma {A} (c : Chroma.cmd A) : M A :=
  fun w =>
    let (r, s) := c (chroma w) in
    (r, mkWorld (redis w) s (clock w) (ticks w) (log w)).

(** The world after one more reading of the clock. *)
Definition tick (w : world) : world :=
  mkWorld (redis w) (chroma w) (clock w) (S (ticks w)) (log w).

(** [datetime.now()] *)
Definition now : M Datetime.datetime :=
  fun w => (Ok (clock w (ticks w)), tick w).

Definition emit (ev : event) : M unit :=
  fun w => (Ok tt, mkWorld (redis w) (chroma w) (clock w) (ticks w) (ev :: log w)).

End World.
Export World.

Declare Scope py_scope.
Delimit Scope py_scope with py.
Notation "x <- c ;; k" := (bind c (fun x => k))
  (at level 61, c at next level, right associativity) : py_scope.
Notation "' pat <- c ;; k" :=
  (bind c (fun x => match x with pat => k end))
  (at level 61, pat pattern, c at next level, right associativity) : py_scope.
Notation "c ;; k" := (bind c (fun _ => k))
  (at level 61, right associativity) : py_scope.
Open Scope py_scope.

(** ** [memory/memory_manager.py]: class [MemoryManager] *)

Module MemoryManager.

(** [a or b], with [b] evaluated only when needed. *)
Definition py_or (a : pyval) (b : result pyval) : result pyval :=
  if truthy a then Ok a else b.

(** [x.decode()] *)
Definition py_decode (v : pyval) : result pyval :=
  match v with
  | VBytes s => Ok (VStr s)
  | _ => Raise AttributeError
  end.

(** [json.loads(x)] *)
Definition json_loads (v : pyval) : result pyval :=
  match v with
  | VStr s => Json.loads s
  | _ => Raise TypeError
  end.

(** [metadata or {}] *)
Definition or_empty (metadata : pyval) : pyval :=
  if truthy metadata then metadata else VDict [].

(** [**m] inside a dict display. *)
Definition splat (m : pyval) : result pydict :=
  match m with
  | VDict d => Ok d
  | _ => Raise TypeError
  end.

(** The three call shapes of [store_memory] (positional [args], keyword
    [kwargs]): what they bind
    [content], [metadata] and [user_id] to (lines 101-114). *)
Definition bind_arguments (args : list pyval) (kwargs : pydict)
  : result (pyval * pyval * pyval) :=
  let user_or_metadata (metadata : pyval) :=
    py_or (dget_or (KStr "user_id") VNone kwargs)
          (if truthy metadata then py_get metadata "user_id" else Ok VNone) in
  match args with
  | [VDict memory_data] =>
      let content := dget_or (KStr "content") VNone memory_data in
      let metadata := dget_or (KStr "metadata") (VDict []) memory_data in
      match py_or (dget_or (KStr "user_id") VNone memory_data)
                  (py_get metadata "user_id") with
      | Ok user_id => Ok (content, metadata, user_id)
      | Raise e => Raise e
      end
  | [content; metadata] =>
      match user_or_metadata metadata with
      | Ok user_id => Ok (content, metadata, user_id)
      | Raise e => Raise e
      end
  | _ =>
      let content := dget_or (KStr "content") VNone kwargs in
      let metadata := dget_or (KStr "metadata") (VDict []) kwargs in
      match user_or_metadata metadata with
      | Ok user_id =>
          if is_none content
          then Raise (ValueError "Missing content for memory storage.")
          else Ok (content, metadata, user_id)
      | Raise e => Raise e
      end
  end.

(** What each call shape binds [metadata] to (lines 104, 107 and 111). *)
Definition bound_metadata (args : list pyval) (kwargs : pydict) : pyval :=
  match args with
  | [VDict memory_data] => dget_or (KStr "metadata") (VDict []) memory_data
  | [_; metadata] => metadata
  | _ => dget_or (KStr "metadata") (VDict []) kwargs
  end.

(** Lines 116-121: the metadata type check and the default owner. *)
Definition validate (cmu : pyval * pyval * pyval) : result (pyval * pyval * pyval) :=
  let '(content, metadata, user_id) := cmu in
  if negb (is_none metadata) && negb (is_dict metadata)
  then Raise (ValueError "Metadata must be a dictionary")
  else Ok (content, metadata,
           if truthy user_id then user_id else VStr "test_user").

(** The owner a call stores under: [user_id] after lines 101-121. *)
Definition effective_owner (args : list pyval) (kwargs : pydict) : result pyval :=
  match bind_arguments args kwargs with
  | Raise e => Raise e
  | Ok cmu =>
      match validate cmu with
      | Raise e => Raise e
      | Ok (_, _, user_id) => Ok user_id
      end
  end.

(** Line 124. *)
Definition make_id (user_id : pyval) (t : Datetime.datetime) : string :=
  py_str user_id ++ "_" ++ Datetime.isoformat t.

Definition _sync_to_ltm (memory_id : string) (user_id content metadata : pyval)
  : M unit :=
  try_except
    (t <- now ;;
     let created_at := Datetime.isoformat t in
     emit (Print "DEBUG: Syncing to LTM") ;;
     extra <- lift (splat (or_empty metadata)) ;;
     on_chroma (Chroma.add memory_id content
                  (dset (KStr "created_at") (VStr created_at)
                     (dmerge [(KStr "user_id", user_id)] extra))) ;;
     emit (LogInfo "Successfully synced memory to LTM"))
    (fun e => emit (LogError "Failed to sync memory to LTM" e)).

(** Lines 128-138: the short-term write. *)
Definition stm_write (memory_id : string) (user_id content metadata : pyval)
  : M unit :=
  js <- lift (Json.dumps (or_empty metadata)) ;;
  t <- now ;;
  on_redis (Redis.hset ("memory:" ++ memory_id)
              [("user_id", user_id);
               ("content", content);
               ("metadata", VStr js);
               ("created_at", VStr (Datetime.isoformat t))]) ;;
  on_redis (Redis.expire ("memory:" ++ memory_id) 3600).

(** Lines 126-145: the short-term write and the sync, inside one [try]. *)
Definition write_tiers (memory_id : string) (user_id content metadata : pyval)
  : M unit :=
  try_except
    (stm_write memory_id user_id content metadata ;;
     _sync_to_ltm memory_id user_id content metadata)
    (fun e => emit (LogError "Failed to store in Redis" e) ;; raise e).

Definition store_memory (args : list pyval) (kwargs : pydict) : M string :=
  cmu <- lift (bind_arguments args kwargs) ;;
  '(content, metadata, user_id) <- lift (validate cmu) ;;
  t <- now ;;
  let memory_id := make_id user_id t in
  write_tiers memory_id user_id content metadata ;;
  ret memory_id.

(** The record [get_memory] builds from a Redis hash. *)
Definition from_short_term (memory_data : pydict) : result pydict :=
  match py_decode (dget_or (KBytes "content") (VBytes "") memory_data) with
  | Raise e => Raise e
  | Ok content =>
      match py_decode (dget_or (KBytes "metadata") (VBytes "{}") memory_data) with
      | Raise e => Raise e
      | Ok mtext =>
          match json_loads mtext with
          | Raise e => Raise e
          | Ok metadata =>
              match py_decode (dget_or (KBytes "created_at") (VBytes "") memory_data) with
              | Raise e => Raise e
              | Ok created_at =>
                  Ok [(KStr "content", content);
                      (KStr "metadata", metadata);
                      (KStr "created_at", created_at);
                      (KStr "source", VStr "short_term")]
              end
          end
      end
  end.

(** The record [get_memory] builds from the first document ChromaDB found. *)
Definition from_long_term (d : Chroma.doc) (t : Datetime.datetime) : result pydict :=
  match Chroma.doc_meta d with
  | None => Raise AttributeError
  | Some metadata =>
      Ok [(KStr "content", VStr (Chroma.doc_text d));
          (KStr "metadata", VDict metadata);
          (KStr "created_at",
             dget_or (KStr "created_at") (VStr (Datetime.isoformat t)) metadata);
          (KStr "source", VStr "long_term")]
  end.

Definition get_memory (memory_id : string) : M (option pydict) :=
  try_except
    (memory_data <- on_redis (Redis.hgetall ("memory:" ++ memory_id)) ;;
     match memory_data with
     | _ :: _ =>
         r <- lift (from_short_term memory_data) ;;
         ret (Some r)
     | [] =>
         results <- on_chroma (Chroma.get_ids memory_id) ;;
         match results with
         | d :: _ =>
             t <- now ;;
             r <- lift (from_long_term d t) ;;
             ret (Some r)
         | [] => ret None
         end
     end)
    (fun e => emit (LogError "Failed to get memory" e) ;; ret None).


(** [l[-n:]] for [n >= 0]: everything when [n] is [0]. *)
Definition last_n {A} (n : nat) (l : list A) : list A :=
  match n with
  | O => l
  | _ => skipn (List.length l - n) l
  end.

(** The loop of [retrieve_context] (lines 189-192); what was collected before
    a failure is kept. *)
Fixpoint collect_recent (user_id : string) (keys : list pyval) (acc : list pydict)
  : world -> list pydict * world :=
  fun w =>
    match keys with
    | [] => (acc, w)
    | key :: keys' =>
        match bind (lift (Redis.encode key)) (fun name => on_redis (Redis.hgetall name)) w with
        | (Raise e, w1) => (acc, snd (emit (LogError "Failed to retrieve from Redis" e) w1))
        | (Ok memory, w1) =>
            let keep :=
              match memory with
              | [] => false
              | _ => pyval_eqb (dget_or (KStr "user_id") VNone memory) (VStr user_id)
              end in
            collect_recent user_id keys' (if keep then acc ++ [memory] else acc) w1
        end
    end.

(** Python orders [str] with [str] only. *)
Definition str_ltb (a b : pyval) : result bool :=
  match a, b with
  | VStr x, VStr y => Ok (String.ltb x y)
  | VBytes x, VBytes y => Ok (String.ltb x y)
  | _, _ => Raise TypeError
  end.

(** [sorted(l, key=..., reverse=True)], one insertion: [x] preceded the
    elements of [l] in the input and stays before those with an equal key. *)
Fixpoint insert_desc {A K} (lt : K -> K -> result bool) (key : A -> K)
    (x : A) (l : list A) : result (list A) :=
  match l with
  | [] => Ok [x]
  | y :: l' =>
      match lt (key x) (key y) with
      | Raise e => Raise e
      | Ok true =>
          match insert_desc lt key x l' with
          | Ok r => Ok (y :: r)
          | Raise e => Raise e
          end
      | Ok false => Ok (x :: l)
      end
  end.

Fixpoint sorted_desc {A K} (lt : K -> K -> result bool) (key : A -> K)
    (l : list A) : result (list A) :=
  match l with
  | [] => Ok []
  | x :: l' =>
      match sorted_desc lt key l' with
      | Ok r => insert_desc lt key x r
      | Raise e => Raise e
      end
  end.

Fixpoint render_memories (l : list pydict) : result (list string) :=
  match l with
  | [] => Ok []
  | m :: l' =>
      match dget (KStr "content") m with
      | None => Raise (KeyError "content")
      | Some c =>
          match render_memories l' with
          | Ok r => Ok (("Memory: " ++ py_str c) :: r)
          | Raise e => Raise e
          end
      end
  end.

Definition newline : string := String (ascii_of_nat 10) "".

(** The sort key of [retrieve_context]: [x.get("created_at", "")]. *)
Definition created (m : pydict) : pyval := dget_or (KStr "created_at") (VStr "") m.




Definition retrieve_context (user_id : string) (limit : nat) : M string :=
  fun w =>
    let (recent_memories, w1) :=
      match on_redis (Redis.keys "memory:") w with
      | (Raise e, w0) => ([], snd (emit (LogError "Failed to retrieve from Redis" e) w0))
      | (Ok keys, w0) => collect_recent user_id (last_n limit keys) [] w0
      end in
    match sorted_desc str_ltb created recent_memories with
    | Raise e => (Raise e, w1)
    | Ok ordered =>
        match render_memories ordered with
        | Raise e => (Raise e, w1)
        | Ok lines => (Ok (String.concat newline lines), w1)
        end
    end.

Definition result_record (d : Chroma.doc) : pydict :=
  [(KStr "id", VStr (Chroma.doc_id d));
   (KStr "content", VStr (Chroma.doc_text d));
   (KStr "metadata", match Chroma.doc_meta d with
                     | Some m => VDict m
                     | None => VNone
                     end)].

Definition search_memories (user_id query : string) (limit : nat) : M (list pydict) :=
  try_except
    (results <- on_chroma (Chroma.query query limit (VStr user_id)) ;;
     ret (map result_record results))
    (fun e => emit (LogError "Failed to search memories" e) ;; ret []).

(** [datetime.fromisoformat(x)]; [None] when it raises [ValueError] or
    [TypeError]. *)
Definition parse_created_at (v : pyval) : option Datetime.datetime :=
  match v with
  | VStr s => Datetime.fromisoformat s
  | _ => None
  end.

(** Lines 269-277. *)
Fixpoint memory_tuples (l : list Chroma.doc) : list (string * Datetime.datetime) :=
  match l with
  | [] => []
  | d :: l' =>
      match Chroma.doc_meta d with
      | Some ((_ :: _) as metadata) =>
          match dget (KStr "created_at") metadata with
          | Some v =>
              match parse_created_at v with
              | Some t => (Chroma.doc_text d, t) :: memory_tuples l'
              | None => memory_tuples l'
              end
          | None => memory_tuples l'
          end
      | _ => memory_tuples l'
      end
  end.

Definition dt_ltb (a b : Datetime.datetime) : result bool := Ok (Datetime.ltb a b).

Definition get_chat_context (user_id : string) (limit : nat) : M (list string) :=
  try_except
    (emit (Print "DEBUG: Getting chat context") ;;
     results <- on_chroma (Chroma.get_where (VStr user_id) (Some (limit * 2))) ;;
     emit (Print "DEBUG: ChromaDB get() results") ;;
     match results with
     | [] => ret []
     | _ =>
         sorted_memories <- lift (sorted_desc dt_ltb snd (memory_tuples results)) ;;
         ret (map fst (firstn limit sorted_memories))
     end)
    (fun e => emit (Print "DEBUG: Failed to get chat context") ;; ret []).

End MemoryManager.

(** ** [memory/short_term.py]: class [ShortTermMemory] *)

Module ShortTermMemory.

Import MemoryManager.

Definition recent_key (user_id : pyval) : string :=
  "user:" ++ py_str user_id ++ ":recent".

(** The identifiers on the recency list of [user_id]. *)
Definition recency_list (user_id : string) (w : world) : list string :=
  match Redis.lookup (recent_key (VStr user_id)) (Redis.keyspace (redis w)) with
  | Some (Redis.mkEntry (Redis.RList l) _) => l
  | _ => []
  end.

(** [expires_in] is [None] or an [int]. *)
Definition store (user_id content metadata : pyval) (expires_in : option Z)
  : M string :=
  if negb (truthy user_id) || negb (truthy content)
  then raise (ValueError "user_id and content are required")
  else
    t <- now ;;
    let memory_id := "stm:" ++ py_str user_id ++ ":" ++ Datetime.isoformat t in
    js <- lift (Json.dumps (or_empty metadata)) ;;
    t' <- now ;;
    let memory_data :=
      [("user_id", user_id);
       ("content", content);
       ("metadata", VStr js);
       ("created_at", VStr (Datetime.isoformat t'))] in
    try_except
      (on_redis (Redis.hset memory_id memory_data) ;;
       match expires_in with
       | Some secs =>
           if (secs =? 0)%Z then ret tt else on_redis (Redis.expire memory_id secs)
       | None => ret tt
       end ;;
       on_redis (Redis.lpush (recent_key user_id) (VStr memory_id)) ;;
       on_redis (Redis.ltrim (recent_key user_id) 0 99) ;;
       ret memory_id)
      (fun e => emit (LogError "Failed to store memory" e) ;; raise e).

(** [x.decode() if isinstance(x, bytes) else x] *)
Definition to_str (v : pyval) : pyval :=
  match v with VBytes s => VStr s | _ => v end.

Definition to_str_key (k : pykey) : pykey :=
  match k with KBytes s => KStr s | _ => k end.

(** The dict comprehension of line 101: entries are assigned in order. *)
Definition decode_items (memory : pydict) : pydict :=
  fold_left (fun acc kv => dset (to_str_key (fst kv)) (to_str (snd kv)) acc) memory [].

Definition get (memory_id : string) : M (option pydict) :=
  try_except
    (raw <- on_redis (Redis.hgetall memory_id) ;;
     match raw with
     | [] => ret None
     | _ =>
         let memory := decode_items raw in
         match dget (KStr "metadata") memory with
         | Some mtext =>
             metadata <- lift (json_loads mtext) ;;
             ret (Some (dset (KStr "metadata") metadata memory))
         | None => ret (Some memory)
         end
     end)
    (fun e => emit (LogError "Failed to get memory" e) ;; ret None).

(** The loop of [get_recent]; [self.get] never raises. *)
Fixpoint get_each (memory_ids : list pyval) : M (list pydict) :=
  match memory_ids with
  | [] => ret []
  | memory_id :: rest =>
      name <- lift (Redis.encode (to_str memory_id)) ;;
      memory <- get name ;;
      memories <- get_each rest ;;
      ret (match memory with
           | Some ((_ :: _) as m) => m :: memories
           | _ => memories
           end)
  end.

Definition get_recent (user_id : string) (limit : Z) : M (list pydict) :=
  try_except
    (memory_ids <- on_redis (Redis.lrange (recent_key (VStr user_id)) 0 (limit - 1)) ;;
     get_each memory_ids)
    (fun e => emit (LogError "Failed to get recent memories" e) ;; ret []).

Definition clear (user_id : string) : M unit :=
  try_except
    (memory_ids <- on_redis (Redis.lrange (recent_key (VStr user_id)) 0 (-1)) ;;
     match memory_ids with
     | [] => ret tt
     | _ => on_redis (Redis.delete memory_ids)
     end ;;
     on_redis (Redis.delete [VStr (recent_key (VStr user_id))]))
    (fun e => emit (LogError "Failed to clear memories" e) ;; raise e).

End ShortTermMemory.

(** ** [memory/long_term.py]: class [LongTermMemory] *)

Module LongTermMemory.

Import MemoryManager.

Definition store (user_id content metadata : pyval) : M string :=
  if negb (truthy user_id) || negb (truthy content)
  then raise (ValueError "user_id and content are required")
  else
    t <- now ;;
    let memory_id := "ltm:" ++ py_str user_id ++ ":" ++ Datetime.isoformat t in
    t' <- now ;;
    extra <- lift (splat (or_empty metadata)) ;;
    let full_metadata :=
      dmerge [(KStr "user_id", user_id);
              (KStr "created_at", VStr (Datetime.isoformat t'))] extra in
    try_except
      (on_chroma (Chroma.add memory_id content full_metadata) ;;
       ret memory_id)
      (fun e => emit (LogError "Failed to store memory" e) ;; raise e).

Definition get (memory_id : string) : M (option pydict) :=
  try_except
    (results <- on_chroma (Chroma.get_ids memory_id) ;;
     match results with
     | [] => ret None
     | d :: _ => ret (Some (result_record d))
     end)
    (fun e => emit (LogError "Failed to get memory" e) ;; ret None).

Definition search (user_id query : string) (limit : nat) : M (list pydict) :=
  try_except
    (results <- on_chroma (Chroma.query query limit (VStr user_id)) ;;
     ret (map result_record results))
    (fun e => emit (LogError "Failed to search memories" e) ;; ret []).

Definition purge (user_id : string) : M unit :=
  try_except
    (results <- on_chroma (Chroma.get_where (VStr user_id) None) ;;
     match results with
     | [] => ret tt
     | _ => on_chroma (Chroma.delete (map Chroma.doc_id results))
     end)
    (fun e => emit (LogError "Failed to purge memories" e) ;; raise e).

End LongTermMemory.

(** ** Concrete worlds used by the examples *)

Module Scenario.

(** A clock that advances one microsecond per reading. *)
Definition ticking (n : nat) : Datetime.datetime :=
  Datetime.mkDatetime 2024 1 1 12 0 0 (N.of_nat n).

(** A clock whose readings all fall in the same microsecond. *)
Definition frozen (_ : nat) : Datetime.datetime :=
  Datetime.mkDatetime 2024 1 1 12 0 0 0.

(** Distance [0] for the text that equals the query, [5] otherwise. *)
Definition exact_match (q text : string) : N :=
  if String.eqb q text then 0%N else 5%N.

(** Both stores empty and healthy; replies are [bytes] (the default client). *)
Definition fresh : world :=
  mkWorld (Redis.mkServer false [] [])
          (Chroma.mkCollection [] exact_match [])
          ticking 0 [].


(** The world after running [c]. *)
Definition after {A} (c : M A) (w : world) : world := snd (c w).

(** The long-term client fails on every call it will receive. *)
Definition ltm_down : world :=
  mkWorld (Redis.mkServer false [] [])
          (Chroma.mkCollection [] exact_match [true; true; true; true])
          ticking 0 [].

(** Empty stores and a clock that does not advance between readings. *)
Definition fresh_frozen : world :=
  mkWorld (Redis.mkServer false [] [])
          (Chroma.mkCollection [] exact_match [])
          frozen 0 [].

(** One record of [u1] in the short-term tier, stored through
    [ShortTermMemory.store]. *)
Definition one_recent : world :=
  after (ShortTermMemory.store (VStr "u1") (VStr "Temporary test message")
           (VDict [(KStr "type", VStr "test")]) None) fresh.

(** The same, with a Redis connection that fails on the next command. *)
Definition one_recent_down : world :=
  mkWorld (Redis.mkServer false (Redis.keyspace (redis one_recent)) [true])
          (chroma one_recent) ticking (ticks one_recent) [].

(** What a computation returned, when it returned a list. *)
Definition found {A} (x : result (list A) * world) : list A :=
  match fst x with
  | Ok l => l
  | Raise _ => []
  end.

(** Two owners in the long-term tier; the text of [alice] equals the query. *)
Definition two_owners : world :=
  mkWorld (Redis.mkServer false [] [])
          (Chroma.mkCollection
             [Chroma.mkDoc "alice_1" "neural networks"
                (Some [(KStr "user_id", VStr "alice")]);
              Chroma.mkDoc "bob_1" "gardening"
                (Some [(KStr "user_id", VStr "bob")])]
             exact_match [])
          ticking 0 [].

(** [u1] has stored one message through [MemoryManager.store_memory]. *)
Definition stored_u1 : world :=
  after (MemoryManager.store_memory
           [VStr "First message about AI"; VDict [(KStr "user_id", VStr "u1")]] [])
        fresh.




(** [u1] stores three messages, one after the other. *)
Definition three_of_u1 : world :=
  after (MemoryManager.store_memory
           [VStr "Third message"; VDict [(KStr "user_id", VStr "u1")]] [])
    (after (MemoryManager.store_memory
              [VStr "Second message"; VDict [(KStr "user_id", VStr "u1")]] [])
       (after (MemoryManager.store_memory
                 [VStr "First message"; VDict [(KStr "user_id", VStr "u1")]] [])
          fresh)).

End Scenario.
(** ** Facts about dictionaries *)

Module PyFacts.

Lemma pykey_eqb_eq a b : pykey_eqb a b = true <-> a = b.
Proof.
  destruct a, b; simpl; rewrite ?String.eqb_eq;
    split; intros H; try discriminate; congruence.
Qed.







Lemma dget_in k v d : dget k d = Some v -> In (k, v) d.
Proof.
  induction d as [|[k' v'] d IH]; simpl; [discriminate|].
  destruct (pykey_eqb k k') eqn:E.
  - apply pykey_eqb_eq in E. intros [= ->]. subst. now left.
  - intros H. right. auto.
Qed.

End PyFacts.

(** ** Facts about the two stores *)

Module StoreFacts.

Import Redis.

Lemma lookup_update_eq {V} k (v : V) l : lookup k (update k v l) = Some v.
Proof.
  induction l as [|[k' v'] l IH]; simpl.
  - now rewrite String.eqb_refl.
  - destruct (String.eqb k k') eqn:E; simpl.
    + now rewrite String.eqb_refl.
    + now rewrite E.
Qed.

Lemma lookup_update_neq {V} k k' (v : V) l :
  k <> k' -> lookup k' (update k v l) = lookup k' l.
Proof.
  intros Hne. induction l as [|[k0 v0] l IH]; simpl.
  - destruct (String.eqb k' k) eqn:E; [|reflexivity].
    apply String.eqb_eq in E. congruence.
  - destruct (String.eqb k k0) eqn:E; simpl.
    + apply String.eqb_eq in E. subst k0.
      destruct (String.eqb k' k) eqn:E'; [|reflexivity].
      apply String.eqb_eq in E'. congruence.
    + now rewrite IH.
Qed.

Lemma lookup_remove_eq {V} k (l : list (string * V)) : lookup k (remove k l) = None.
Proof.
  induction l as [|[k' v'] l IH]; simpl; [reflexivity|].
  destruct (String.eqb k k') eqn:E; simpl; [assumption|].
  now rewrite E.
Qed.

Lemma lookup_remove_neq {V} k k' (l : list (string * V)) :
  k <> k' -> lookup k' (remove k l) = lookup k' l.
Proof.
  intros Hne. induction l as [|[k0 v0] l IH]; simpl; [reflexivity|].
  destruct (String.eqb k k0) eqn:E; simpl.
  - apply String.eqb_eq in E. subst k0.
    destruct (String.eqb k' k) eqn:E'; [|assumption].
    apply String.eqb_eq in E'. congruence.
  - now rewrite IH.
Qed.

Lemma remove_absent {V} k (l : list (string * V)) :
  lookup k l = None -> remove k l = l.
Proof.
  induction l as [|[k' v'] l IH]; simpl; [reflexivity|].
  destruct (String.eqb k k'); [discriminate|].
  intros H. now rewrite IH.
Qed.

(** What [hgetall] hands back for one field. *)
Lemma dget_reply_bytes f fs :
  dget (KBytes f) (map (fun fv : string * string => (KBytes (fst fv), VBytes (snd fv))) fs)
  = option_map VBytes (lookup f fs).
Proof.
  induction fs as [|[f' v'] fs IH]; simpl; [reflexivity|].
  destruct (String.eqb f f'); [reflexivity|assumption].
Qed.

Lemma dget_reply_str f fs :
  dget (KStr f) (map (fun fv : string * string => (KStr (fst fv), VStr (snd fv))) fs)
  = option_map VStr (lookup f fs).
Proof.
  induction fs as [|[f' v'] fs IH]; simpl; [reflexivity|].
  destruct (String.eqb f f'); [reflexivity|assumption].
Qed.

(** A [str] key is never found among [bytes] keys. *)
Lemma dget_str_in_bytes f fs :
  dget (KStr f) (map (fun fv : string * string => (KBytes (fst fv), VBytes (snd fv))) fs)
  = None.
Proof. induction fs as [|[f' v'] fs IH]; simpl; auto. Qed.

Lemma dget_bytes_in_str f fs :
  dget (KBytes f) (map (fun fv : string * string => (KStr (fst fv), VStr (snd fv))) fs)
  = None.
Proof. induction fs as [|[f' v'] fs IH]; simpl; auto. Qed.

Lemma pyval_eqb_str v s : pyval_eqb v (VStr s) = true -> v = VStr s.
Proof.
  destruct v; simpl; try discriminate.
  intros H. apply String.eqb_eq in H. now subst.
Qed.

Lemma pyval_eqb_str_refl s : pyval_eqb (VStr s) (VStr s) = true.
Proof. simpl. apply String.eqb_refl. Qed.

(** Ranking is a rearrangement. *)
Lemma in_insert_by {A} (rank : A -> N) x y l :
  In y (Chroma.insert_by rank x l) <-> y = x \/ In y l.
Proof.
  induction l as [|z l IH]; simpl.
  - intuition.
  - destruct (N.ltb (rank z) (rank x)); simpl; rewrite ?IH; intuition.
Qed.

Lemma in_sort_by {A} (rank : A -> N) y l :
  In y (Chroma.sort_by rank l) <-> In y l.
Proof.
  induction l as [|z l IH]; simpl; [tauto|].
  rewrite in_insert_by, IH. intuition.
Qed.

Lemma in_firstn {A} n (x : A) l : In x (firstn n l) -> In x l.
Proof.
  revert l. induction n as [|n IH]; intros [|y l]; simpl; try tauto.
  intros [H|H]; auto.
Qed.

Lemma owned_by_str owner d :
  Chroma.owned_by (VStr owner) d = true ->
  exists m, Chroma.doc_meta d = Some m /\ dget (KStr "user_id") m = Some (VStr owner).
Proof.
  unfold Chroma.owned_by.
  destruct (Chroma.doc_meta d) as [m|]; [|discriminate].
  destruct (dget (KStr "user_id") m) as [v|] eqn:E; [|discriminate].
  intros H. apply pyval_eqb_str in H. subst. eauto.
Qed.

(** Every document [query] returns passes the [where] filter. *)
Lemma query_owned q n owner c l c' d :
  Chroma.query q n (VStr owner) c = (Ok l, c') ->
  In d l ->
  In d (Chroma.docs c) /\ Chroma.owned_by (VStr owner) d = true.
Proof.
  unfold Chroma.query.
  unfold Chroma.connect.
  destruct (hd false (Chroma.faults c)); [discriminate|].
  intros [= <- <-] Hin.
  apply in_firstn, in_sort_by, filter_In in Hin.
  exact Hin.
Qed.

End StoreFacts.

(** ** Facts about [MemoryManager] *)

Module ManagerFacts.

Import MemoryManager StoreFacts.

(** The sync step never raises and touches neither Redis nor the clock
    function. *)
Lemma sync_frame memory_id user content metadata w :
  exists w',
    _sync_to_ltm memory_id user content metadata w = (Ok tt, w')
    /\ redis w' = redis w /\ clock w' = clock w.
Proof.
  unfold _sync_to_ltm, try_except, bind, now, tick, emit, lift, on_chroma; simpl.
  destruct (splat (or_empty metadata)) as [extra|e]; simpl.
  - match goal with
    | |- context [Chroma.add ?i ?d ?m ?c] => destruct (Chroma.add i d m c) as [[[]|e] c']
    end; simpl; eexists; repeat split.
  - eexists; repeat split.
Qed.

Lemma validate_ok content metadata user0 cmu :
  validate (content, metadata, user0) = Ok cmu ->
  cmu = (content, metadata, if truthy user0 then user0 else VStr "test_user")
  /\ (metadata = VNone \/ exists d, metadata = VDict d).
Proof.
  unfold validate.
  destruct metadata; simpl; try discriminate; intros [= <-]; split; eauto.
Qed.

(** The four fields [store_memory] writes. *)
Lemma written_fields (fs : list (string * string)) su sc js st :
  let h := fold_left (fun acc fv => Redis.update (fst fv) (snd fv) acc)
             [("user_id", su); ("content", sc); ("metadata", js); ("created_at", st)] fs in
  Redis.lookup "user_id" h = Some su /\ Redis.lookup "content" h = Some sc /\
  Redis.lookup "metadata" h = Some js /\ Redis.lookup "created_at" h = Some st.
Proof.
  simpl. repeat split.
  - rewrite !lookup_update_neq by discriminate. apply lookup_update_eq.
  - rewrite !lookup_update_neq by discriminate. apply lookup_update_eq.
  - rewrite !lookup_update_neq by discriminate. apply lookup_update_eq.
  - apply lookup_update_eq.
Qed.

Lemma healthy_S n s :
  Redis.healthy (S n) s = true ->
  hd false (Redis.faults s) = false
  /\ Redis.healthy n (Redis.mkServer (Redis.decode_responses s) (Redis.keyspace s)
                        (tl (Redis.faults s))) = true.
Proof.
  unfold Redis.healthy. simpl.
  destruct (Redis.faults s) as [|[] f]; simpl; try discriminate; auto.
  destruct n; auto.
Qed.

Lemma prefix_app p s : String.prefix p (p ++ s) = true.
Proof.
  induction p as [|c p IH]; simpl.
  - now destruct s.
  - destruct (ascii_dec c c); [assumption|congruence].
Qed.

(** What a successful short-term write leaves behind. *)
Lemma stm_write_ok memory_id user content metadata w w1 :
  stm_write memory_id user content metadata w = (Ok tt, w1) ->
  exists js sc su h,
    Json.dumps (or_empty metadata) = Ok js
    /\ Redis.encode content = Ok sc
    /\ Redis.encode user = Ok su
    /\ Redis.lookup ("memory:" ++ memory_id) (Redis.keyspace (redis w1))
       = Some (Redis.mkEntry (Redis.RHash h) (Some 3600%Z))
    /\ Redis.lookup "user_id" h = Some su
    /\ Redis.lookup "content" h = Some sc
    /\ Redis.lookup "metadata" h = Some js
    /\ Redis.lookup "created_at" h = Some (Datetime.isoformat (clock w (ticks w)))
    /\ Redis.decode_responses (redis w1) = Redis.decode_responses (redis w)
    /\ Redis.faults (redis w1) = tl (tl (Redis.faults (redis w)))
    /\ clock w1 = clock w /\ chroma w1 = chroma w /\ log w1 = log w.
Proof.
  unfold stm_write, bind at 1, lift at 1.
  destruct (Json.dumps (or_empty metadata)) as [js|e] eqn:Ej; [|discriminate].
  unfold bind at 1, now at 1, tick. cbn [ticks clock redis chroma log].
  unfold bind at 1, on_redis at 1, Redis.hset, Redis.connect.
  cbn [ticks clock redis chroma log Redis.faults Redis.keyspace Redis.decode_responses].
  destruct (hd false (Redis.faults (redis w))); [discriminate|].
  cbn [Redis.encode_mapping].
  destruct (Redis.encode user) as [su|e] eqn:Eu; [|discriminate].
  destruct (Redis.encode content) as [sc|e] eqn:Ec; [|discriminate].
  cbn [Redis.encode].
  set (name := "memory:" ++ memory_id).
  set (st := Datetime.isoformat (clock w (ticks w))).
  assert (Hstep : forall old ttl,
    (let h := fold_left (fun acc fv => Redis.update (fst fv) (snd fv) acc)
                [("user_id", su); ("content", sc); ("metadata", js); ("created_at", st)]
                old in
     on_redis (Redis.expire name 3600)
       (mkWorld (Redis.set_keyspace
                   (Redis.mkServer (Redis.decode_responses (redis w))
                      (Redis.keyspace (redis w)) (tl (Redis.faults (redis w))))
                   (Redis.update name (Redis.mkEntry (Redis.RHash h) ttl)
                      (Redis.keyspace (redis w))))
          (chroma w) (clock w) (S (ticks w)) (log w)) = (Ok tt, w1) ->
     Redis.lookup name (Redis.keyspace (redis w1))
       = Some (Redis.mkEntry (Redis.RHash h) (Some 3600%Z))
     /\ Redis.decode_responses (redis w1) = Redis.decode_responses (redis w)
     /\ Redis.faults (redis w1) = tl (tl (Redis.faults (redis w)))
     /\ clock w1 = clock w /\ chroma w1 = chroma w /\ log w1 = log w)).
  { intros old ttl h.
    unfold on_redis, Redis.expire, Redis.connect.
    cbn [ticks clock redis chroma log Redis.faults Redis.keyspace
         Redis.decode_responses Redis.set_keyspace].
    destruct (hd false (tl (Redis.faults (redis w)))); [discriminate|].
    rewrite lookup_update_eq. cbn [Z.leb Z.compare Redis.e_val].
    intros [= <-]. cbn. rewrite lookup_update_eq. auto 10. }
  destruct (Redis.lookup name (Redis.keyspace (redis w))) as [[[old|l] ttl]|] eqn:El.
  - intros Es. apply Hstep in Es. destruct Es as (H1 & H2 & H3 & H4 & H5 & H6).
    pose proof (written_fields old su sc js st) as (F1 & F2 & F3 & F4).
    do 4 eexists. repeat split; eauto.
  - discriminate.
  - intros Es. apply Hstep in Es. destruct Es as (H1 & H2 & H3 & H4 & H5 & H6).
    pose proof (written_fields [] su sc js st) as (F1 & F2 & F3 & F4).
    do 4 eexists. repeat split; eauto.
Qed.

(** When the values can be encoded and the next two Redis commands go
    through, the short-term write succeeds. *)
Lemma stm_write_succeeds memory_id user content metadata w js sc su :
  Json.dumps (or_empty metadata) = Ok js ->
  Redis.encode content = Ok sc ->
  Redis.encode user = Ok su ->
  Redis.healthy 2 (redis w) = true ->
  (forall l ttl,
      Redis.lookup ("memory:" ++ memory_id) (Redis.keyspace (redis w))
      <> Some (Redis.mkEntry (Redis.RList l) ttl)) ->
  exists w1, stm_write memory_id user content metadata w = (Ok tt, w1).
Proof.
  intros Ej Ec Eu Hh Hnl.
  apply healthy_S in Hh. destruct Hh as [H1 Hh].
  apply healthy_S in Hh. destruct Hh as [H2 _]. cbn in H2.
  unfold stm_write, bind at 1, lift at 1. rewrite Ej.
  unfold bind at 1, now at 1, tick. cbn [ticks clock redis chroma log].
  unfold bind at 1, on_redis at 1, Redis.hset, Redis.connect.
  cbn [ticks clock redis chroma log Redis.faults Redis.keyspace Redis.decode_responses].
  rewrite H1. cbn [Redis.encode_mapping]. rewrite Eu, Ec. cbn [Redis.encode].
  set (name := "memory:" ++ memory_id) in *.
  assert (Hstep : forall h ttl,
    exists w1,
     on_redis (Redis.expire name 3600)
       (mkWorld (Redis.set_keyspace
                   (Redis.mkServer (Redis.decode_responses (redis w))
                      (Redis.keyspace (redis w)) (tl (Redis.faults (redis w))))
                   (Redis.update name (Redis.mkEntry (Redis.RHash h) ttl)
                      (Redis.keyspace (redis w))))
          (chroma w) (clock w) (S (ticks w)) (log w)) = (Ok tt, w1)).
  { intros h ttl.
    unfold on_redis, Redis.expire, Redis.connect.
    cbn [ticks clock redis chroma log Redis.faults Redis.keyspace
         Redis.decode_responses Redis.set_keyspace].
    rewrite H2, lookup_update_eq. cbn [Z.leb Z.compare Redis.e_val].
    eauto. }
  destruct (Redis.lookup name (Redis.keyspace (redis w))) as [[[old|l] ttl]|] eqn:El.
  - apply Hstep.
  - exfalso. eapply Hnl. reflexivity.
  - apply Hstep.
Qed.

(** The shape of a run of [store_memory] that returns. *)
Lemma store_memory_ok args kwargs w id w' :
  store_memory args kwargs w = (Ok id, w') ->
  exists content metadata user0 user js sc su h,
    bind_arguments args kwargs = Ok (content, metadata, user0)
    /\ validate (content, metadata, user0) = Ok (content, metadata, user)
    /\ id = make_id user (clock w (ticks w))
    /\ Json.dumps (or_empty metadata) = Ok js
    /\ Redis.encode content = Ok sc
    /\ Redis.encode user = Ok su
    /\ Redis.lookup ("memory:" ++ id) (Redis.keyspace (redis w'))
       = Some (Redis.mkEntry (Redis.RHash h) (Some 3600%Z))
    /\ Redis.lookup "user_id" h = Some su
    /\ Redis.lookup "content" h = Some sc
    /\ Redis.lookup "metadata" h = Some js
    /\ Redis.lookup "created_at" h = Some (Datetime.isoformat (clock w (S (ticks w))))
    /\ Redis.decode_responses (redis w') = Redis.decode_responses (redis w)
    /\ Redis.faults (redis w') = tl (tl (Redis.faults (redis w)))
    /\ clock w' = clock w.
Proof.
  unfold store_memory, bind at 1, lift at 1.
  destruct (bind_arguments args kwargs) as [[[content metadata] user0]|e] eqn:Eb;
    [|discriminate].
  unfold bind at 1, lift at 1.
  destruct (validate (content, metadata, user0)) as [cmu|e] eqn:Ev; [|discriminate].
  destruct (validate_ok _ _ _ Ev) as [-> _].
  set (user := if truthy user0 then user0 else VStr "test_user") in *.
  unfold bind at 1, now at 1, tick. cbn [ticks clock redis chroma log].
  set (id0 := make_id user (clock w (ticks w))).
  unfold bind at 1, write_tiers, try_except, bind at 1.
  match goal with
  | |- context [stm_write ?a ?b ?c ?d ?x] =>
      destruct (stm_write a b c d x) as [[[]|e] w1] eqn:Es
  end; [|unfold bind, emit, raise; discriminate].
  destruct (sync_frame id0 user content metadata w1) as (w2 & -> & Hr & Hc).
  unfold ret. intros [= <- <-].
  apply stm_write_ok in Es.
  destruct Es as (js & sc & su & h & H1 & H2 & H3 & H4 & H5 & H6 & H7 & H8 & H9
                  & H10 & H11 & _).
  cbn [ticks clock redis chroma log] in *.
  exists content, metadata, user0, user, js, sc, su, h.
  rewrite Hr, Hc. repeat split; auto.
Qed.

(** When the arguments pass validation, the values can be encoded and the
    next two Redis commands go through, [store_memory] returns the
    identifier, whatever the long-term tier does. *)
Lemma store_memory_succeeds args kwargs w content metadata user0 user js sc su :
  bind_arguments args kwargs = Ok (content, metadata, user0) ->
  validate (content, metadata, user0) = Ok (content, metadata, user) ->
  Json.dumps (or_empty metadata) = Ok js ->
  Redis.encode content = Ok sc ->
  Redis.encode user = Ok su ->
  Redis.healthy 2 (redis w) = true ->
  (forall k l ttl,
      Redis.lookup k (Redis.keyspace (redis w)) = Some (Redis.mkEntry (Redis.RList l) ttl) ->
      String.prefix "memory:" k = false) ->
  exists w', store_memory args kwargs w = (Ok (make_id user (clock w (ticks w))), w').
Proof.
  intros Eb Ev Ej Ec Eu Hh Hnl.
  unfold store_memory, bind at 1, lift at 1. rewrite Eb.
  unfold bind at 1, lift at 1. rewrite Ev.
  unfold bind at 1, now at 1, tick. cbn [ticks clock redis chroma log].
  set (id0 := make_id user (clock w (ticks w))).
  unfold bind at 1, write_tiers, try_except, bind at 1.
  match goal with
  | |- context [stm_write ?a ?b ?c ?d ?x] =>
      destruct (stm_write_succeeds a b c d x Ej Ec Eu) as [w1 ->]
  end.
  - exact Hh.
  - cbn [ticks clock redis chroma log]. intros l ttl El.
    apply Hnl in El. now rewrite prefix_app in El.
  - destruct (sync_frame id0 user content metadata w1) as (w2 & -> & _).
    unfold ret. eauto.
Qed.

(** A hash found in Redis by a client that leaves replies undecoded. *)
Lemma get_memory_short_term id w h ttl sc js md :
  Redis.decode_responses (redis w) = false ->
  hd false (Redis.faults (redis w)) = false ->
  Redis.lookup ("memory:" ++ id) (Redis.keyspace (redis w))
    = Some (Redis.mkEntry (Redis.RHash h) ttl) ->
  Redis.lookup "content" h = Some sc ->
  Redis.lookup "metadata" h = Some js ->
  Json.loads js = Ok md ->
  exists created w',
    get_memory id w
    = (Ok (Some [(KStr "content", VStr sc); (KStr "metadata", md);
                 (KStr "created_at", VStr created);
                 (KStr "source", VStr "short_term")]), w')
    /\ chroma w' = chroma w.
Proof.
  intros Hd Hf Hl Hc Hm Hj.
  unfold get_memory, try_except, bind at 1, on_redis at 1, Redis.hgetall, Redis.connect.
  rewrite Hf. cbn [Redis.keyspace Redis.decode_responses Redis.faults].
  rewrite Hl. unfold Redis.reply_key, Redis.reply.
  cbn [Redis.keyspace Redis.decode_responses Redis.faults]. rewrite Hd.
  destruct h as [|fv h']; [discriminate|].
  set (h := fv :: h') in *.
  change (map ?f h) with (f fv :: map f h') at 1.
  cbv iota beta.
  unfold bind at 1, lift at 1, from_short_term, dget_or.
  rewrite !dget_reply_bytes, Hc, Hm. cbn [option_map py_decode json_loads].
  rewrite Hj.
  destruct (Redis.lookup "created_at" h) as [st|]; cbn [option_map py_decode];
    unfold ret; eexists; eexists; split; reflexivity.
Qed.

Lemma or_empty_dict md : or_empty (VDict md) = VDict md.
Proof. now destruct md. Qed.

End ManagerFacts.

(** ** [fromisoformat] reads back what [isoformat] prints *)

Module DatetimeFacts.

Import Datetime.
Local Open Scope N_scope.

Lemma digit_value_digit n : digit_value (digit n) = Some (n mod 10).
Proof.
  unfold digit_value, digit.
  assert (Hlt : n mod 10 < 10) by (apply N.mod_lt; discriminate).
  generalize dependent (n mod 10). intros k Hlt.
  rewrite N_ascii_embedding by lia.
  assert (H1 : (48 <=? 48 + k) = true) by (apply N.leb_le; lia).
  assert (H2 : (48 + k <=? 57) = true) by (apply N.leb_le; lia).
  rewrite H1, H2. cbn [andb]. f_equal. lia.
Qed.

(** Reading one more digit. *)
Lemma read_digits_snoc w : forall acc s x c rest v,
  read_digits w acc s = Some (x, String c rest) ->
  digit_value c = Some v ->
  read_digits (S w) acc s = Some (10 * x + v, rest).
Proof.
  induction w as [|w IH]; intros acc s x c rest v Hr Hc.
  - simpl in Hr. inversion Hr; subst. simpl. now rewrite Hc.
  - destruct s as [|c0 s]; [discriminate|].
    change (read_digits (S w) acc (String c0 s)) with
      (match digit_value c0 with
       | Some v0 => read_digits w (10 * acc + v0) s
       | None => None
       end) in Hr.
    change (read_digits (S (S w)) acc (String c0 s)) with
      (match digit_value c0 with
       | Some v0 => read_digits (S w) (10 * acc + v0) s
       | None => None
       end).
    destruct (digit_value c0) as [v0|]; [|discriminate].
    eapply IH; eauto.
Qed.

Lemma append_assoc (a b c : string) : ((a ++ b) ++ c = a ++ (b ++ c))%string.
Proof. induction a as [|x a IH]; simpl; [reflexivity|now rewrite IH]. Qed.

Lemma append_nil_r (a : string) : (a ++ "" = a)%string.
Proof. induction a as [|x a IH]; simpl; [reflexivity|now rewrite IH]. Qed.

Lemma read_digits_pad w : forall acc n rest,
  read_digits w acc (pad w n ++ rest) = Some (acc * 10 ^ N.of_nat w + n mod 10 ^ N.of_nat w, rest).
Proof.
  induction w as [|w IH]; intros acc n rest.
  - simpl. f_equal. f_equal. rewrite N.mod_1_r. lia.
  - cbn [pad]. rewrite append_assoc. cbn [append].
    erewrite read_digits_snoc; [|apply IH|apply digit_value_digit].
    f_equal. f_equal.
    rewrite Nat2N.inj_succ, N.pow_succ_r'.
    rewrite (N.Div0.mod_mul_r n 10 (10 ^ N.of_nat w)). ring.
Qed.

Lemma read_digits_small w n rest :
  n < 10 ^ N.of_nat w ->
  read_digits w 0 (pad w n ++ rest) = Some (n, rest).
Proof.
  intros H. rewrite read_digits_pad. rewrite N.mod_small by assumption.
  reflexivity.
Qed.

Lemma days_in_month_le y m : days_in_month y m <= 31.
Proof.
  unfold days_in_month.
  destruct m as [|[[[[]|[]|]|[[]|[]|]|]|[[[]|[]|]|[[]|[]|]|]|]];
    try destruct (is_leap y); lia.
Qed.

Lemma valid_bounds d :
  valid d = true ->
  year d < 10000 /\ month d < 100 /\ day d < 100 /\ hour d < 100
  /\ minute d < 100 /\ second d < 100 /\ microsecond d < 1000000.
Proof.
  unfold valid. rewrite !andb_true_iff.
  rewrite !N.leb_le, !N.ltb_lt.
  pose proof (days_in_month_le (year d) (month d)). lia.
Qed.

Theorem fromisoformat_isoformat d :
  valid d = true -> fromisoformat (isoformat d) = Some d.
Proof.
  intros Hv. pose proof (valid_bounds d Hv) as (Hy & Hmo & Hd & Hh & Hmi & Hs & Hus).
  unfold fromisoformat, isoformat.
  rewrite read_digits_small by exact Hy. cbn [obind append expect Ascii.eqb Bool.eqb].
  rewrite read_digits_small by exact Hmo. cbn [obind append expect Ascii.eqb Bool.eqb].
  rewrite read_digits_small by exact Hd. cbn [obind append expect Ascii.eqb Bool.eqb].
  rewrite read_digits_small by exact Hh. cbn [obind append expect Ascii.eqb Bool.eqb].
  rewrite read_digits_small by exact Hmi. cbn [obind append expect Ascii.eqb Bool.eqb].
  rewrite read_digits_small by exact Hs. cbn [obind].
  destruct (microsecond d =? 0) eqn:E.
  - apply N.eqb_eq in E. cbn [obind].
    replace (mkDatetime (year d) (month d) (day d) (hour d) (minute d) (second d) 0)
      with d by (destruct d; simpl in *; congruence).
    now rewrite Hv.
  - cbn [append obind expect Ascii.eqb Bool.eqb].
    rewrite <- (append_nil_r (pad 6 (microsecond d))).
    rewrite read_digits_small by exact Hus. cbn [obind].
    replace (mkDatetime (year d) (month d) (day d) (hour d) (minute d) (second d)
               (microsecond d)) with d by (now destruct d).
    now rewrite Hv.
Qed.

Corollary isoformat_inj d1 d2 :
  valid d1 = true -> valid d2 = true ->
  isoformat d1 = isoformat d2 -> d1 = d2.
Proof.
  intros H1 H2 E.
  apply (f_equal fromisoformat) in E.
  rewrite !fromisoformat_isoformat in E by assumption.
  now inversion E.
Qed.

Lemma append_cancel_l (p a b : string) : (p ++ a = p ++ b)%string -> a = b.
Proof. induction p as [|c p IH]; simpl; [auto|]. intros [= H]. auto. Qed.

End DatetimeFacts.

(** ** Owner isolation of search *)

Section SearchIsolation.

Import StoreFacts Scenario.

Lemma result_record_owner owner d :
  Chroma.owned_by (VStr owner) d = true ->
  exists m, dget (KStr "metadata") (MemoryManager.result_record d) = Some (VDict m)
            /\ dget (KStr "user_id") m = Some (VStr owner).
Proof.
  intros H. destruct (owned_by_str _ _ H) as (m & Hm & Hu).
  exists m. unfold MemoryManager.result_record. rewrite Hm. simpl. auto.
Qed.

Lemma search_body_owned owner query limit w r :
  In r (found (MemoryManager.search_memories owner query limit w)) ->
  exists d, r = MemoryManager.result_record d
            /\ In d (Chroma.docs (chroma w))
            /\ Chroma.owned_by (VStr owner) d = true.
Proof.
  unfold found, MemoryManager.search_memories, try_except, bind, on_chroma, ret.
  destruct (Chroma.query query limit (VStr owner) (chroma w)) as [[l|e] c'] eqn:Eq; simpl.
  - intros Hin. apply in_map_iff in Hin. destruct Hin as (d & <- & Hd).
    exists d. split; [reflexivity|]. eapply query_owned; eauto.
  - tauto.
Qed.

End SearchIsolation.

(** C6. Owner isolation of search: every record that
    [MemoryManager.search_memories] or [LongTermMemory.search] returns for an
    owner carries that owner under [user_id] in its metadata; the [where]
    filter is applied to the collection before the ranking, so a document of
    another owner is never returned, whatever its rank would be. *)
Theorem search_owner_isolation :
  forall (w : world) (owner query : string) (limit : nat) (r : pydict),
    In r (Scenario.found (MemoryManager.search_memories owner query limit w)) \/
    In r (Scenario.found (LongTermMemory.search owner query limit w)) ->
    exists m, dget (KStr "metadata") r = Some (VDict m)
              /\ dget (KStr "user_id") m = Some (VStr owner).
Proof.
  intros w owner query limit r H.
  assert (Hin : In r (Scenario.found (MemoryManager.search_memories owner query limit w)))
    by (destruct H as [H|H]; exact H).
  destruct (search_body_owned _ _ _ _ _ Hin) as (d & -> & _ & Hown).
  now apply result_record_owner.
Qed.

(** The query text equals the document of [alice]; the search of [bob] still
    returns only the document of [bob]. *)
Lemma search_owner_isolation_witness :
  Scenario.found (MemoryManager.search_memories "bob" "neural networks" 1 Scenario.two_owners)
  = [[(KStr "id", VStr "bob_1"); (KStr "content", VStr "gardening");
      (KStr "metadata", VDict [(KStr "user_id", VStr "bob")])]]
  /\ exists m,
       dget (KStr "metadata")
         [(KStr "id", VStr "bob_1"); (KStr "content", VStr "gardening");
          (KStr "metadata", VDict [(KStr "user_id", VStr "bob")])] = Some (VDict m)
       /\ dget (KStr "user_id") m = Some (VStr "bob").
Proof.
  split; [reflexivity|].
  apply (search_owner_isolation Scenario.two_owners "bob" "neural networks" 1).
  left. vm_compute. auto.
Defined.

(** ** Round trip through the short-term tier *)

Section RoundTrip.

Import MemoryManager StoreFacts ManagerFacts.

Lemma healthy_third s :
  Redis.healthy 3 s = true ->
  Redis.healthy 2 s = true /\ hd false (tl (tl (Redis.faults s))) = false.
Proof.
  unfold Redis.healthy.
  destruct (Redis.faults s) as [|[] [|[] [|[] f]]]; simpl; try discriminate; auto.
Qed.

Lemma validate_owner content md user0 :
  user0 = VNone \/ (exists owner, user0 = VStr owner) ->
  exists user su,
    validate (VStr content, VDict md, user0) = Ok (VStr content, VDict md, user)
    /\ Redis.encode user = Ok su.
Proof.
  unfold validate. simpl.
  intros [->|[owner ->]]; simpl.
  - do 2 eexists. split; reflexivity.
  - destruct (negb (String.eqb owner "")); simpl; do 2 eexists; split; reflexivity.
Qed.

(** Store, then read back with the identifier that was returned. *)
Lemma store_then_get w args kwargs content md user0 js :
  bind_arguments args kwargs = Ok (VStr content, VDict md, user0) ->
  user0 = VNone \/ (exists owner, user0 = VStr owner) ->
  Json.dumps (VDict md) = Ok js ->
  Json.loads js = Ok (VDict md) ->
  Redis.decode_responses (redis w) = false ->
  Redis.healthy 3 (redis w) = true ->
  (forall k l ttl,
      Redis.lookup k (Redis.keyspace (redis w)) = Some (Redis.mkEntry (Redis.RList l) ttl) ->
      String.prefix "memory:" k = false) ->
  exists id w1 created w2,
    store_memory args kwargs w = (Ok id, w1)
    /\ get_memory id w1
       = (Ok (Some [(KStr "content", VStr content); (KStr "metadata", VDict md);
                    (KStr "created_at", VStr created);
                    (KStr "source", VStr "short_term")]), w2).
Proof.
  intros Eb Hu Ej El Hd Hh Hnl.
  destruct (healthy_third _ Hh) as [Hh2 Hf3].
  destruct (validate_owner content md Hu) as (user & su & Ev & Eu).
  destruct (store_memory_succeeds args kwargs w Eb Ev
              (eq_trans (f_equal Json.dumps (or_empty_dict md)) Ej)
              eq_refl Eu Hh2 Hnl) as [w1 Hs].
  destruct (store_memory_ok _ _ _ Hs)
    as (c' & m' & u0' & u' & js' & sc' & su' & h & Eb' & Ev' & _ & Ej' & Ec' & _
        & Hl & _ & Hc & Hm & _ & Hd' & Hf' & _).
  rewrite Eb in Eb'. inversion Eb'; subst c' m' u0'.
  rewrite or_empty_dict, Ej in Ej'. inversion Ej'; subst js'.
  simpl in Ec'. inversion Ec'; subst sc'.
  destruct (get_memory_short_term (make_id user (clock w (ticks w))) w1
              (ttl := Some 3600%Z) (h := h) (sc := content) (js := js) (md := VDict md))
    as (created & w2 & Hg & _); try assumption.
  - congruence.
  - now rewrite Hf'.
  - eauto 10.
Qed.

End RoundTrip.

(** C1. Round trip: when a call of [store_memory] binds [content] to a string
    and [metadata] to a dictionary that survives JSON serialisation, and the
    short-term tier is reachable, [get_memory] on the returned identifier
    returns a present record whose [content] is the input and whose metadata
    has every input key with its input value. *)
Theorem store_get_roundtrip :
  forall (w : world) (args : list pyval) (kwargs md : pydict)
         (content js : string) (user0 : pyval),
    MemoryManager.bind_arguments args kwargs = Ok (VStr content, VDict md, user0) ->
    user0 = VNone \/ (exists owner, user0 = VStr owner) ->
    Json.dumps (VDict md) = Ok js ->
    Json.loads js = Ok (VDict md) ->
    Redis.decode_responses (redis w) = false ->
    Redis.healthy 3 (redis w) = true ->
    (forall k l ttl,
        Redis.lookup k (Redis.keyspace (redis w))
        = Some (Redis.mkEntry (Redis.RList l) ttl) ->
        String.prefix "memory:" k = false) ->
    exists id w1 r w2,
      MemoryManager.store_memory args kwargs w = (Ok id, w1)
      /\ MemoryManager.get_memory id w1 = (Ok (Some r), w2)
      /\ dget (KStr "content") r = Some (VStr content)
      /\ exists stored,
           dget (KStr "metadata") r = Some (VDict stored)
           /\ forall k v, dget k md = Some v -> dget k stored = Some v.
Proof.
  intros w args kwargs md content js user0 Eb Hu Ej El Hd Hh Hnl.
  destruct (store_then_get w args kwargs Eb Hu Ej El Hd Hh Hnl)
    as (id & w1 & created & w2 & Hs & Hg).
  exists id, w1. eexists. exists w2.
  split; [exact Hs|]. split; [exact Hg|].
  split; [reflexivity|].
  exists md. split; [reflexivity|]. auto.
Qed.

(** The call [store_memory("First message about AI", {"user_id": "u1",
    "type": "test"})] on empty stores. *)
Lemma store_get_roundtrip_witness :
  exists id w1 r w2,
    MemoryManager.store_memory
      [VStr "First message about AI";
       VDict [(KStr "user_id", VStr "u1"); (KStr "type", VStr "test")]] []
      Scenario.fresh = (Ok id, w1)
    /\ MemoryManager.get_memory id w1 = (Ok (Some r), w2)
    /\ dget (KStr "content") r = Some (VStr "First message about AI")
    /\ exists stored,
         dget (KStr "metadata") r = Some (VDict stored)
         /\ forall k v,
              dget k [(KStr "user_id", VStr "u1"); (KStr "type", VStr "test")] = Some v ->
              dget k stored = Some v.
Proof.
  eapply (store_get_roundtrip Scenario.fresh
            [VStr "First message about AI";
             VDict [(KStr "user_id", VStr "u1"); (KStr "type", VStr "test")]] []
            (user0 := VStr "u1")).
  - reflexivity.
  - right. exists "u1". reflexivity.
  - reflexivity.
  - vm_compute. reflexivity.
  - reflexivity.
  - reflexivity.
  - simpl. discriminate.
Defined.

(** ** Tier independence and error propagation *)

Section TierIndependence.

Import MemoryManager StoreFacts ManagerFacts.

(** A run of [store_memory] that returns: arguments, validation, short-term
    write, sync. *)
Lemma store_memory_steps args kwargs w id w2 :
  store_memory args kwargs w = (Ok id, w2) <->
  exists content metadata user0 user w1,
    bind_arguments args kwargs = Ok (content, metadata, user0)
    /\ validate (content, metadata, user0) = Ok (content, metadata, user)
    /\ id = make_id user (clock w (ticks w))
    /\ stm_write id user content metadata (tick w) = (Ok tt, w1)
    /\ _sync_to_ltm id user content metadata w1 = (Ok tt, w2).
Proof.
  unfold store_memory, bind at 1, lift at 1.
  destruct (bind_arguments args kwargs) as [[[content metadata] user0]|e] eqn:Eb.
  2:{ split; [discriminate|]. intros (? & ? & ? & ? & ? & H & _). discriminate. }
  unfold bind at 1, lift at 1.
  destruct (validate (content, metadata, user0)) as [cmu|e] eqn:Ev.
  2:{ split; [discriminate|].
      intros (? & ? & ? & ? & ? & [= <- <- <-] & H & _). congruence. }
  destruct (validate_ok _ _ _ Ev) as [-> _].
  set (user := if truthy user0 then user0 else VStr "test_user") in *.
  unfold bind at 1, now at 1.
  set (id0 := make_id user (clock w (ticks w))).
  unfold bind at 1, write_tiers, try_except, bind at 1.
  destruct (stm_write id0 user content metadata (tick w)) as [[[]|e] w1] eqn:Es.
  - destruct (sync_frame id0 user content metadata w1) as (w2' & Hs & _).
    rewrite Hs. unfold ret. split.
    + intros [= <- <-]. exists content, metadata, user0, user, w1. auto.
    + intros (c & m & u0 & u & w1' & [= <- <- <-] & Hv & -> & Hw & Hy).
      rewrite Ev in Hv. inversion Hv; subst u.
      fold id0 in Hw, Hy. rewrite Es in Hw. inversion Hw; subst w1'.
      rewrite Hs in Hy. now inversion Hy.
  - split; [unfold bind, emit, raise; discriminate|].
    intros (c & m & u0 & u & w1' & [= <- <- <-] & Hv & -> & Hw & _).
    rewrite Ev in Hv. inversion Hv; subst u.
    fold id0 in Hw. rewrite Es in Hw. discriminate.
Qed.

(** Where an exception of [store_memory] comes from. *)
Lemma store_memory_raises args kwargs w e w' :
  store_memory args kwargs w = (Raise e, w') ->
  (bind_arguments args kwargs = Raise e /\ w' = w)
  \/ (exists cmu, bind_arguments args kwargs = Ok cmu
                  /\ validate cmu = Raise e /\ w' = w)
  \/ (exists content metadata user0 user w1,
        bind_arguments args kwargs = Ok (content, metadata, user0)
        /\ validate (content, metadata, user0) = Ok (content, metadata, user)
        /\ stm_write (make_id user (clock w (ticks w))) user content metadata (tick w)
           = (Raise e, w1)
        /\ chroma w' = chroma w).
Proof.
  unfold store_memory, bind at 1, lift at 1.
  destruct (bind_arguments args kwargs) as [[[content metadata] user0]|e0] eqn:Eb.
  2:{ intros [= <- <-]. auto. }
  unfold bind at 1, lift at 1.
  destruct (validate (content, metadata, user0)) as [cmu|e0] eqn:Ev.
  2:{ intros [= <- <-]. right. left. eauto. }
  destruct (validate_ok _ _ _ Ev) as [-> _].
  set (user := if truthy user0 then user0 else VStr "test_user") in *.
  unfold bind at 1, now at 1.
  set (id0 := make_id user (clock w (ticks w))).
  unfold bind at 1, write_tiers, try_except, bind at 1.
  destruct (stm_write id0 user content metadata (tick w)) as [[[]|e0] w1] eqn:Es.
  - destruct (sync_frame id0 user content metadata w1) as (w2' & Hs & _).
    rewrite Hs. unfold ret. discriminate.
  - unfold bind, emit, raise. intros [= <- <-]. right. right.
    exists content, metadata, user0, user, w1. repeat split; auto.
    cbn. clear - Es.
    (* a failed short-term write has not touched the long-term tier *)
    revert Es. unfold stm_write, bind, lift, now, tick, on_redis.
    destruct (Json.dumps (or_empty metadata)); [|intros [= _ <-]; reflexivity].
    cbn [redis chroma clock ticks log].
    match goal with
    | |- context [Redis.hset ?n ?m ?s] => destruct (Redis.hset n m s) as [[[]|?] ?]
    end; [|intros [= _ <-]; reflexivity].
    cbn [redis chroma clock ticks log].
    match goal with
    | |- context [Redis.expire ?n ?m ?s] => destruct (Redis.expire n m s) as [[[]|?] ?]
    end; intros [= _ <-]; reflexivity.
Qed.

(** A sync step whose connection fails is logged and leaves both tiers as
    they were. *)
Lemma sync_fault memory_id user content metadata w :
  hd false (Chroma.faults (chroma w)) = true ->
  exists e w',
    _sync_to_ltm memory_id user content metadata w = (Ok tt, w')
    /\ redis w' = redis w
    /\ Chroma.docs (chroma w') = Chroma.docs (chroma w)
    /\ log w' = LogError "Failed to sync memory to LTM" e
                  :: Print "DEBUG: Syncing to LTM" :: log w.
Proof.
  intros Hf.
  unfold _sync_to_ltm, try_except, bind, now, tick, emit, lift, on_chroma.
  cbn [redis chroma clock ticks log].
  destruct (splat (or_empty metadata)) as [extra|e]; cbn [redis chroma clock ticks log].
  - unfold Chroma.add.
    destruct content; try (do 2 eexists; split; [reflexivity|]; cbn; auto).
    match goal with |- context [Chroma.valid_metadata ?m] =>
      destruct (Chroma.valid_metadata m) end.
    + unfold Chroma.connect. rewrite Hf.
      do 2 eexists; split; [reflexivity|]; cbn; auto.
    + do 2 eexists; split; [reflexivity|]; cbn; auto.
  - do 2 eexists; split; [reflexivity|]; cbn; auto.
Qed.

End TierIndependence.

(** C2. Tier independence and error propagation: an exception of
    [store_memory] is raised either by the handling of its arguments and
    their validation, before any store is touched, or by the short-term
    write; a failing long-term sync is caught and logged, [store_memory] still
    returns the identifier and [get_memory] serves the record from the
    short-term tier. *)
Theorem ltm_failure_contained :
  (forall args kwargs w e w',
      MemoryManager.store_memory args kwargs w = (Raise e, w') ->
      (MemoryManager.bind_arguments args kwargs = Raise e /\ w' = w)
      \/ (exists cmu, MemoryManager.bind_arguments args kwargs = Ok cmu
                      /\ MemoryManager.validate cmu = Raise e /\ w' = w)
      \/ (exists content metadata user0 user w1,
            MemoryManager.bind_arguments args kwargs = Ok (content, metadata, user0)
            /\ MemoryManager.validate (content, metadata, user0)
               = Ok (content, metadata, user)
            /\ MemoryManager.stm_write
                 (MemoryManager.make_id user (clock w (ticks w)))
                 user content metadata (tick w) = (Raise e, w1)
            /\ chroma w' = chroma w))
  /\
  (forall (w : world) (args : list pyval) (kwargs md : pydict)
          (content js : string) (user0 : pyval),
      MemoryManager.bind_arguments args kwargs = Ok (VStr content, VDict md, user0) ->
      user0 = VNone \/ (exists owner, user0 = VStr owner) ->
      Json.dumps (VDict md) = Ok js ->
      Json.loads js = Ok (VDict md) ->
      Redis.decode_responses (redis w) = false ->
      Redis.healthy 3 (redis w) = true ->
      (forall k l ttl,
          Redis.lookup k (Redis.keyspace (redis w))
          = Some (Redis.mkEntry (Redis.RList l) ttl) ->
          String.prefix "memory:" k = false) ->
      hd false (Chroma.faults (chroma w)) = true ->
      exists id w1 e r w2,
        MemoryManager.store_memory args kwargs w = (Ok id, w1)
        /\ In (LogError "Failed to sync memory to LTM" e) (log w1)
        /\ Chroma.docs (chroma w1) = Chroma.docs (chroma w)
        /\ MemoryManager.get_memory id w1 = (Ok (Some r), w2)
        /\ dget (KStr "source") r = Some (VStr "short_term")
        /\ dget (KStr "content") r = Some (VStr content)).
Proof.
  split.
  - intros args kwargs w e w' H. now apply store_memory_raises.
  - intros w args kwargs md content js user0 Eb Hu Ej El Hd Hh Hnl Hf.
    destruct (store_then_get w args kwargs Eb Hu Ej El Hd Hh Hnl)
      as (id & w1 & created & w2 & Hs & Hg).
    pose proof Hs as Hsteps. apply store_memory_steps in Hsteps.
    destruct Hsteps as (c & m & u0 & u & wm & _ & _ & _ & Hw & Hy).
    destruct (ManagerFacts.stm_write_ok _ _ _ _ _ Hw)
      as (? & ? & ? & ? & _ & _ & _ & _ & _ & _ & _ & _ & _ & _ & _ & Hc & _).
    destruct (sync_fault id u c m wm) as (e & w1' & Hy' & _ & Hdocs & Hlog).
    { rewrite Hc. exact Hf. }
    rewrite Hy in Hy'. inversion Hy'; subst w1'.
    exists id, w1, e. eexists. exists w2.
    split; [exact Hs|]. split; [rewrite Hlog; now left|].
    split; [rewrite Hdocs, Hc; reflexivity|].
    split; [exact Hg|]. split; reflexivity.
Qed.

(** The long-term client fails on every call; the record is still stored and
    served. *)
Lemma ltm_failure_contained_witness :
  exists id w1 e r w2,
    MemoryManager.store_memory
      [VStr "Test memory for consistency";
       VDict [(KStr "user_id", VStr "test_user"); (KStr "type", VStr "test")]] []
      Scenario.ltm_down = (Ok id, w1)
    /\ In (LogError "Failed to sync memory to LTM" e) (log w1)
    /\ Chroma.docs (chroma w1) = Chroma.docs (chroma Scenario.ltm_down)
    /\ MemoryManager.get_memory id w1 = (Ok (Some r), w2)
    /\ dget (KStr "source") r = Some (VStr "short_term")
    /\ dget (KStr "content") r = Some (VStr "Test memory for consistency").
Proof.
  pose proof (proj2 ltm_failure_contained) as H.
  eapply (H Scenario.ltm_down
            [VStr "Test memory for consistency";
             VDict [(KStr "user_id", VStr "test_user"); (KStr "type", VStr "test")]] []
            _ _ _ (VStr "test_user")).
  - reflexivity.
  - right. exists "test_user". reflexivity.
  - reflexivity.
  - vm_compute. reflexivity.
  - reflexivity.
  - reflexivity.
  - simpl. discriminate.
  - reflexivity.
Defined.

(** ** Identifiers *)

Section Identifiers.

Import MemoryManager ManagerFacts DatetimeFacts.

Lemma make_id_inj owner t1 t2 :
  Datetime.valid t1 = true -> Datetime.valid t2 = true ->
  make_id owner t1 = make_id owner t2 -> t1 = t2.
Proof.
  unfold make_id. intros H1 H2 E.
  apply append_cancel_l in E. apply (append_cancel_l "_") in E.
  now apply isoformat_inj.
Qed.

Lemma store_memory_id args kwargs w id w' :
  store_memory args kwargs w = (Ok id, w') ->
  exists owner,
    effective_owner args kwargs = Ok owner
    /\ id = make_id owner (clock w (ticks w)).
Proof.
  intros H. apply store_memory_ok in H.
  destruct H as (c & m & u0 & u & ? & ? & ? & ? & Eb & Ev & -> & _).
  exists u. unfold effective_owner. now rewrite Eb, Ev.
Qed.

End Identifiers.

(** C5, as the code has it.  The identifier is the owner, an underscore and
    the ISO text of the instant read from the clock, so it is a function of
    the owner and that instant; two calls for one owner return distinct
    identifiers exactly when the instants they read differ. *)
Theorem store_id_from_owner_and_instant :
  forall (args1 args2 : list pyval) (kwargs1 kwargs2 : pydict)
         (w1 w1' w2 w2' : world) (id1 id2 : string) (owner : pyval),
    MemoryManager.store_memory args1 kwargs1 w1 = (Ok id1, w1') ->
    MemoryManager.store_memory args2 kwargs2 w2 = (Ok id2, w2') ->
    MemoryManager.effective_owner args1 kwargs1 = Ok owner ->
    MemoryManager.effective_owner args2 kwargs2 = Ok owner ->
    Datetime.valid (clock w1 (ticks w1)) = true ->
    Datetime.valid (clock w2 (ticks w2)) = true ->
    id1 = (py_str owner ++ "_" ++ Datetime.isoformat (clock w1 (ticks w1)))%string
    /\ id2 = (py_str owner ++ "_" ++ Datetime.isoformat (clock w2 (ticks w2)))%string
    /\ (id1 = id2 <-> clock w1 (ticks w1) = clock w2 (ticks w2)).
Proof.
  intros args1 args2 kwargs1 kwargs2 w1 w1' w2 w2' id1 id2 owner
         Hs1 Hs2 Ho1 Ho2 Hv1 Hv2.
  destruct (store_memory_id _ _ _ Hs1) as (o1 & Ho1' & ->).
  destruct (store_memory_id _ _ _ Hs2) as (o2 & Ho2' & ->).
  rewrite Ho1 in Ho1'. inversion Ho1'; subst o1.
  rewrite Ho2 in Ho2'. inversion Ho2'; subst o2.
  split; [reflexivity|]. split; [reflexivity|].
  split.
  - now apply make_id_inj.
  - now intros ->.
Qed.

(** Two calls of one owner under a clock that advances between them. *)
Lemma store_id_from_owner_and_instant_witness :
  "u1_2024-01-01T12:00:00" = "u1_2024-01-01T12:00:00.000003"
  <-> Scenario.ticking 0 = Scenario.ticking 3.
Proof.
  pose (call1 := MemoryManager.store_memory
                   [VStr "First message about AI"; VDict [(KStr "user_id", VStr "u1")]]
                   [] Scenario.fresh).
  pose (call2 := MemoryManager.store_memory
                   [VStr "Second message about ML"; VDict [(KStr "user_id", VStr "u1")]]
                   [] (snd call1)).
  apply (@store_id_from_owner_and_instant
           [VStr "First message about AI"; VDict [(KStr "user_id", VStr "u1")]]
           [VStr "Second message about ML"; VDict [(KStr "user_id", VStr "u1")]]
           [] []
           Scenario.fresh (snd call1) (snd call1) (snd call2)
           "u1_2024-01-01T12:00:00" "u1_2024-01-01T12:00:00.000003" (VStr "u1"));
    reflexivity.
Defined.

(** C5 as stated fails: under a clock that does not advance between the two
    calls, the same owner is given the same identifier twice. *)
Lemma store_id_collision :
  let call1 :=
    MemoryManager.store_memory
      [VStr "First message about AI"; VDict [(KStr "user_id", VStr "u1")]] []
      Scenario.fresh_frozen in
  let call2 :=
    MemoryManager.store_memory
      [VStr "Second message about ML"; VDict [(KStr "user_id", VStr "u1")]] []
      (snd call1) in
  fst call1 = Ok "u1_2024-01-01T12:00:00"
  /\ fst call2 = Ok "u1_2024-01-01T12:00:00".
Proof.
  vm_compute. split; reflexivity.
Qed.

(** ** [ShortTermMemory.clear] *)

Section Clear.

Import ShortTermMemory StoreFacts.

Lemma encode_all_reply s l : Redis.encode_all (map (Redis.reply s) l) = Ok l.
Proof.
  unfold Redis.reply.
  induction l as [|x l IH]; simpl; [reflexivity|].
  rewrite IH. now destruct (Redis.decode_responses s).
Qed.

Lemma slice_all {A} (l : list A) : Redis.slice 0 (-1) l = l.
Proof.
  unfold Redis.slice. cbn [Z.ltb Z.compare].
  destruct l as [|x l]; [reflexivity|].
  set (n := Z.of_nat (List.length (x :: l))).
  assert (Hn : (1 <= n)%Z) by (unfold n; simpl List.length; lia).
  replace (Z.max 0 0) with 0%Z by reflexivity.
  replace (Z.min (n - 1) (n + -1)) with (n - 1)%Z by lia.
  destruct (Z.ltb_spec (n - 1) 0); [lia|].
  replace (n - 1 - 0 + 1)%Z with n by lia.
  unfold n. rewrite Nat2Z.id. simpl skipn. apply firstn_all.
Qed.

Lemma lookup_remove_all {V} k ks : forall (l : list (string * V)),
  Redis.lookup k (fold_left (fun acc x => Redis.remove x acc) ks l)
  = if existsb (String.eqb k) ks then None else Redis.lookup k l.
Proof.
  induction ks as [|x ks IH]; intros l; simpl; [reflexivity|].
  rewrite IH.
  destruct (existsb (String.eqb k) ks); [now rewrite orb_true_r|].
  rewrite orb_false_r.
  destruct (String.eqb k x) eqn:E.
  - apply String.eqb_eq in E. subst. apply lookup_remove_eq.
  - apply lookup_remove_neq. intros ->. now rewrite String.eqb_refl in E.
Qed.

Lemma existsb_eqb_in k ks : In k ks -> existsb (String.eqb k) ks = true.
Proof.
  intros H. apply existsb_exists. exists k. split; [assumption|apply String.eqb_refl].
Qed.

(** [clear] with the connection up for its commands. *)
Lemma clear_ok user w :
  Redis.healthy 3 (redis w) = true ->
  (forall fs ttl,
      Redis.lookup (recent_key (VStr user)) (Redis.keyspace (redis w))
      <> Some (Redis.mkEntry (Redis.RHash fs) ttl)) ->
  exists w1,
    clear user w = (Ok tt, w1)
    /\ (forall id, In id (recency_list user w) ->
                   Redis.lookup id (Redis.keyspace (redis w1)) = None)
    /\ Redis.lookup (recent_key (VStr user)) (Redis.keyspace (redis w1)) = None
    /\ (Redis.faults (redis w1) = tl (tl (Redis.faults (redis w)))
        \/ Redis.faults (redis w1) = tl (tl (tl (Redis.faults (redis w)))))
    /\ log w1 = log w.
Proof.
  intros Hh Hnh.
  unfold clear, recency_list, try_except, bind at 1, bind at 1, on_redis at 1,
    Redis.lrange, Redis.connect.
  set (key := recent_key (VStr user)) in *.
  assert (H123 : hd false (Redis.faults (redis w)) = false
                 /\ hd false (tl (Redis.faults (redis w))) = false
                 /\ hd false (tl (tl (Redis.faults (redis w)))) = false).
  { unfold Redis.healthy in Hh.
    destruct (Redis.faults (redis w)) as [|[] [|[] [|[] f]]]; simpl in Hh;
      try discriminate; auto. }
  destruct H123 as (H1 & H2 & H3).
  rewrite H1. cbn [Redis.keyspace Redis.decode_responses Redis.faults].
  destruct (Redis.lookup key (Redis.keyspace (redis w))) as [[[fs|l] ttl]|] eqn:El.
  - exfalso. eapply Hnh. reflexivity.
  - rewrite slice_all.
    destruct l as [|x l].
    + cbn [map]. unfold ret, bind, on_redis, Redis.delete, Redis.connect.
      cbn [redis chroma clock ticks log Redis.keyspace Redis.decode_responses
           Redis.faults Redis.encode_all Redis.encode fold_left Redis.set_keyspace].
      rewrite H2. eexists. split; [reflexivity|].
      cbn [redis chroma clock ticks log Redis.keyspace].
      split; [intros id []|]. split; [apply lookup_remove_eq|].
      split; [left; reflexivity|reflexivity].
    + set (ids := x :: l) in *.
      change (map ?f ids) with (f x :: map f l) at 1. cbv iota beta.
      unfold bind at 1, on_redis at 1, Redis.delete at 1, Redis.connect.
      cbn [redis chroma clock ticks log Redis.keyspace Redis.decode_responses
           Redis.faults].
      rewrite H2, encode_all_reply.
      unfold on_redis, Redis.delete, Redis.connect.
      cbn [redis chroma clock ticks log Redis.keyspace Redis.decode_responses
           Redis.faults Redis.encode_all Redis.encode fold_left Redis.set_keyspace].
      rewrite H3. eexists. split; [reflexivity|].
      cbn [redis chroma clock ticks log Redis.keyspace].
      split; [|split; [apply lookup_remove_eq|]].
      * intros id Hin. unfold Redis.set_keyspace. cbn [Redis.keyspace].
        destruct (String.eqb key id) eqn:E.
        -- apply String.eqb_eq in E. subst id. apply lookup_remove_eq.
        -- rewrite lookup_remove_neq
             by (intros ->; now rewrite String.eqb_refl in E).
           rewrite lookup_remove_all, existsb_eqb_in; auto.
      * split; [right; reflexivity|reflexivity].
  - cbn [map]. unfold ret, bind, on_redis, Redis.delete, Redis.connect.
    cbn [redis chroma clock ticks log Redis.keyspace Redis.decode_responses
         Redis.faults Redis.encode_all Redis.encode fold_left Redis.set_keyspace].
    rewrite H2. eexists. split; [reflexivity|].
    cbn [redis chroma clock ticks log Redis.keyspace].
    split; [intros id []|]. split; [apply lookup_remove_eq|].
    split; [left; reflexivity|reflexivity].
Qed.

(** [clear] when the owner has no recency list: nothing changes. *)
Lemma clear_again user w :
  Redis.healthy 2 (redis w) = true ->
  Redis.lookup (recent_key (VStr user)) (Redis.keyspace (redis w)) = None ->
  exists w1,
    clear user w = (Ok tt, w1)
    /\ Redis.keyspace (redis w1) = Redis.keyspace (redis w)
    /\ chroma w1 = chroma w /\ log w1 = log w.
Proof.
  intros Hh Hl.
  unfold clear, try_except, bind at 1, bind at 1, on_redis at 1,
    Redis.lrange, Redis.connect.
  assert (H1 : hd false (Redis.faults (redis w)) = false
               /\ hd false (tl (Redis.faults (redis w))) = false).
  { unfold Redis.healthy in Hh.
    destruct (Redis.faults (redis w)) as [|[] [|[] f]]; simpl in Hh;
      try discriminate; auto. }
  destruct H1 as [H1 H2].
  rewrite H1. cbn [Redis.keyspace Redis.decode_responses Redis.faults].
  rewrite Hl. cbn [map]. unfold ret, bind, on_redis, Redis.delete, Redis.connect.
  cbn [redis chroma clock ticks log Redis.keyspace Redis.decode_responses
       Redis.faults Redis.encode_all Redis.encode fold_left Redis.set_keyspace].
  rewrite H2. eexists. split; [reflexivity|].
  cbn [redis chroma clock ticks log Redis.keyspace].
  split; [now apply remove_absent|auto].
Qed.

(** A connection failure on the first command is logged and raised again. *)
Lemma clear_fault user w :
  hd false (Redis.faults (redis w)) = true ->
  exists w1,
    clear user w = (Raise ConnectionError, w1)
    /\ Redis.keyspace (redis w1) = Redis.keyspace (redis w)
    /\ log w1 = LogError "Failed to clear memories" ConnectionError :: log w.
Proof.
  intros H.
  unfold clear, try_except, bind at 1, bind at 1, on_redis at 1,
    Redis.lrange, Redis.connect.
  rewrite H. unfold bind, emit, raise. eexists. split; [reflexivity|].
  split; reflexivity.
Qed.

(** A connection failure on either of the first two commands is logged and
    raised again. *)
Lemma clear_unhealthy user w :
  Redis.healthy 2 (redis w) = false ->
  exists e w1,
    clear user w = (Raise e, w1)
    /\ log w1 = LogError "Failed to clear memories" e :: log w.
Proof.
  intros Hh.
  unfold clear, try_except, bind at 1, bind at 1, on_redis at 1,
    Redis.lrange, Redis.connect.
  destruct (hd false (Redis.faults (redis w))) eqn:H1.
  { unfold bind, emit, raise. do 2 eexists. split; reflexivity. }
  assert (H2 : hd false (tl (Redis.faults (redis w))) = true).
  { unfold Redis.healthy in Hh.
    destruct (Redis.faults (redis w)) as [|[] [|[] f]]; simpl in *;
      try discriminate; reflexivity. }
  cbn [Redis.keyspace Redis.decode_responses Redis.faults].
  destruct (Redis.lookup (recent_key (VStr user)) (Redis.keyspace (redis w)))
    as [[[fs|l] ttl]|] eqn:El.
  - unfold bind, emit, raise. do 2 eexists. split; reflexivity.
  - rewrite slice_all. destruct l as [|x l].
    + cbn [map]. unfold ret, bind, on_redis, Redis.delete, Redis.connect, emit, raise.
      cbn [redis chroma clock ticks log Redis.keyspace Redis.decode_responses
           Redis.faults].
      rewrite H2. do 2 eexists. split; reflexivity.
    + change (map ?f (x :: l)) with (f x :: map f l) at 1. cbv iota beta.
      unfold bind at 1, on_redis at 1, Redis.delete at 1, Redis.connect.
      cbn [redis chroma clock ticks log Redis.keyspace Redis.decode_responses
           Redis.faults].
      rewrite H2. unfold bind, emit, raise. do 2 eexists. split; reflexivity.
  - cbn [map]. unfold ret, bind, on_redis, Redis.delete, Redis.connect, emit, raise.
    cbn [redis chroma clock ticks log Redis.keyspace Redis.decode_responses
         Redis.faults].
    rewrite H2. do 2 eexists. split; reflexivity.
Qed.

Lemma healthy_five s :
  Redis.healthy 5 s = true ->
  Redis.healthy 3 s = true
  /\ forall s', (Redis.faults s' = tl (tl (Redis.faults s))
                 \/ Redis.faults s' = tl (tl (tl (Redis.faults s)))) ->
                Redis.healthy 2 s' = true.
Proof.
  unfold Redis.healthy. intros H.
  destruct (Redis.faults s) as [|[] [|[] [|[] [|[] [|[] f]]]]]; simpl in H;
    try discriminate; (split; [reflexivity|]); intros s' [-> | ->]; reflexivity.
Qed.

End Clear.

(** C9, as the code has it.  With the connection up, [clear] removes every
    record named on the owner's recency list and the list itself, and a
    second [clear] right after it succeeds and changes nothing; a connection
    failure during [clear] is logged and raised again to the caller. *)
Theorem clear_removes_and_reraises :
  (forall (w : world) (user : string),
      Redis.healthy 5 (redis w) = true ->
      (forall fs ttl,
          Redis.lookup (ShortTermMemory.recent_key (VStr user)) (Redis.keyspace (redis w))
          <> Some (Redis.mkEntry (Redis.RHash fs) ttl)) ->
      exists w1 w2,
        ShortTermMemory.clear user w = (Ok tt, w1)
        /\ (forall id, In id (ShortTermMemory.recency_list user w) ->
                       Redis.lookup id (Redis.keyspace (redis w1)) = None)
        /\ Redis.lookup (ShortTermMemory.recent_key (VStr user))
             (Redis.keyspace (redis w1)) = None
        /\ ShortTermMemory.clear user w1 = (Ok tt, w2)
        /\ Redis.keyspace (redis w2) = Redis.keyspace (redis w1)
        /\ log w2 = log w)
  /\
  (forall (w : world) (user : string),
      Redis.healthy 2 (redis w) = false ->
      exists e w1,
        ShortTermMemory.clear user w = (Raise e, w1)
        /\ log w1 = LogError "Failed to clear memories" e :: log w).
Proof.
  split.
  - intros w user Hh Hnh.
    destruct (healthy_five _ Hh) as [H3 H2].
    destruct (clear_ok user w H3 Hnh) as (w1 & Hc & Hids & Hkey & Hf & Hlog).
    destruct (clear_again user w1 (H2 _ Hf) Hkey) as (w2 & Hc2 & Hks & _ & Hlog2).
    exists w1, w2. repeat split; auto. congruence.
  - intros w user Hh. now apply clear_unhealthy.
Qed.

(** One record of [u1] and its recency list, cleared twice. *)
Lemma clear_removes_and_reraises_witness :
  exists w1 w2,
    ShortTermMemory.clear "u1" Scenario.one_recent = (Ok tt, w1)
    /\ (forall id, In id (ShortTermMemory.recency_list "u1" Scenario.one_recent) ->
                   Redis.lookup id (Redis.keyspace (redis w1)) = None)
    /\ Redis.lookup (ShortTermMemory.recent_key (VStr "u1"))
         (Redis.keyspace (redis w1)) = None
    /\ ShortTermMemory.clear "u1" w1 = (Ok tt, w2)
    /\ Redis.keyspace (redis w2) = Redis.keyspace (redis w1)
    /\ log w2 = log Scenario.one_recent.
Proof.
  apply (proj1 clear_removes_and_reraises Scenario.one_recent "u1").
  - reflexivity.
  - intros fs ttl. vm_compute. discriminate.
Defined.

(** C9 as stated fails: with the connection down, [clear] raises, and the
    record it was to remove is still there. *)
Lemma clear_raises_when_store_fails :
  fst (ShortTermMemory.clear "u1" Scenario.one_recent_down) = Raise ConnectionError
  /\ ShortTermMemory.recency_list "u1"
       (snd (ShortTermMemory.clear "u1" Scenario.one_recent_down))
     = ["stm:u1:2024-01-01T12:00:00"].
Proof.
  vm_compute. split; reflexivity.
Qed.

(** ** Input validation *)

Section Validation.

Import MemoryManager.

Lemma bind_arguments_metadata args kwargs content metadata user :
  bind_arguments args kwargs = Ok (content, metadata, user) ->
  metadata = bound_metadata args kwargs.
Proof.
  unfold bind_arguments, bound_metadata, py_or.
  destruct args as [|a [|b [|c l]]]; try destruct a;
    repeat match goal with
           | |- context [if ?b then _ else _] => destruct b
           | |- context [match py_get ?m ?k with _ => _ end] => destruct (py_get m k)
           end;
    try discriminate; intros [= ? ? ?]; congruence.
Qed.

Lemma bind_arguments_raises args kwargs e :
  bind_arguments args kwargs = Raise e ->
  e = AttributeError \/ e = ValueError "Missing content for memory storage.".
Proof.
  unfold bind_arguments, py_or, py_get.
  destruct args as [|a [|b [|c l]]]; try destruct a;
    repeat match goal with
           | |- context [if ?b then _ else _] => destruct b
           | |- context [match ?m with VDict _ => _ | _ => _ end] => destruct m
           end;
    try discriminate; intros [= <-]; auto.
Qed.

Lemma store_memory_rejects args kwargs w e :
  bind_arguments args kwargs = Raise e
  \/ (exists cmu, bind_arguments args kwargs = Ok cmu /\ validate cmu = Raise e) ->
  store_memory args kwargs w = (Raise e, w).
Proof.
  unfold store_memory, bind, lift.
  intros [H|(cmu & H & Hv)]; rewrite H; [reflexivity|].
  now rewrite Hv.
Qed.

End Validation.

(** C3, as the code has it.  [ShortTermMemory.store] and
    [LongTermMemory.store] refuse an empty owner or an empty content with a
    [ValueError] and leave the world as it was.  [MemoryManager.store_memory]
    raises and leaves the world as it was, in each argument shape, when the
    metadata is neither [None] nor a dictionary, and in the keyword shape when
    no content is given; an empty owner is not refused there but replaced by
    [test_user]. *)
Theorem store_validation :
  (forall (w : world) (user_id content metadata : pyval) (expires_in : option Z),
      truthy user_id = false \/ truthy content = false ->
      ShortTermMemory.store user_id content metadata expires_in w
      = (Raise (ValueError "user_id and content are required"), w)
      /\ LongTermMemory.store user_id content metadata w
         = (Raise (ValueError "user_id and content are required"), w))
  /\
  (forall (w : world) (args : list pyval) (kwargs : pydict),
      is_none (MemoryManager.bound_metadata args kwargs) = false ->
      is_dict (MemoryManager.bound_metadata args kwargs) = false ->
      exists e,
        MemoryManager.store_memory args kwargs w = (Raise e, w)
        /\ (e = ValueError "Metadata must be a dictionary"
            \/ e = AttributeError
            \/ e = ValueError "Missing content for memory storage."))
  /\
  (forall (w : world) (kwargs : pydict),
      dget (KStr "content") kwargs = None ->
      exists e,
        MemoryManager.store_memory [] kwargs w = (Raise e, w)
        /\ (e = ValueError "Missing content for memory storage."
            \/ e = AttributeError))
  /\
  (forall (content metadata user_id : pyval),
      truthy user_id = false ->
      metadata = VNone \/ is_dict metadata = true ->
      MemoryManager.validate (content, metadata, user_id)
      = Ok (content, metadata, VStr "test_user")).
Proof.
  split; [|split; [|split]].
  - intros w user_id content metadata expires_in H.
    unfold ShortTermMemory.store, LongTermMemory.store.
    assert (E : negb (truthy user_id) || negb (truthy content) = true).
    { destruct H as [-> | ->]; [reflexivity|apply orb_true_r]. }
    rewrite E. split; reflexivity.
  - intros w args kwargs Hn Hd.
    destruct (MemoryManager.bind_arguments args kwargs) as [[[c m] u]|e] eqn:Eb.
    + pose proof (bind_arguments_metadata _ _ Eb) as ->.
      exists (ValueError "Metadata must be a dictionary").
      split; [|auto].
      apply store_memory_rejects. right. eexists. split; [exact Eb|].
      unfold MemoryManager.validate. now rewrite Hn, Hd.
    + exists e. split; [apply store_memory_rejects; auto|].
      destruct (bind_arguments_raises _ _ Eb); auto.
  - intros w kwargs Hc.
    destruct (MemoryManager.bind_arguments [] kwargs) as [[[c m] u]|e] eqn:Eb.
    + exfalso. revert Eb. unfold MemoryManager.bind_arguments, dget_or.
      rewrite Hc. cbn [is_none].
      destruct (MemoryManager.py_or _ _); discriminate.
    + exists e. split; [apply store_memory_rejects; auto|].
      destruct (bind_arguments_raises _ _ Eb); auto.
  - intros content metadata user_id Hu Hm.
    unfold MemoryManager.validate. rewrite Hu.
    destruct Hm as [-> | Hd]; [reflexivity|].
    now rewrite Hd, andb_false_r.
Qed.

(** The keyword call with a string for metadata. *)
Lemma store_validation_witness :
  exists e,
    MemoryManager.store_memory []
      [(KStr "user_id", VStr "test_user_123"); (KStr "content", VStr "Test message");
       (KStr "metadata", VStr "invalid_metadata")] Scenario.fresh
    = (Raise e, Scenario.fresh)
    /\ (e = ValueError "Metadata must be a dictionary"
        \/ e = AttributeError
        \/ e = ValueError "Missing content for memory storage.").
Proof.
  apply (proj1 (proj2 store_validation) Scenario.fresh []
           [(KStr "user_id", VStr "test_user_123"); (KStr "content", VStr "Test message");
            (KStr "metadata", VStr "invalid_metadata")]); reflexivity.
Defined.

(** C3 as stated fails: a call with an empty content and no owner is not
    refused; the record is written under [test_user]. *)
Lemma empty_content_and_owner_accepted :
  let call := MemoryManager.store_memory [VStr ""; VDict []] [] Scenario.fresh in
  fst call = Ok "test_user_2024-01-01T12:00:00"
  /\ Redis.lookup "memory:test_user_2024-01-01T12:00:00"
       (Redis.keyspace (redis (snd call)))
     = Some (Redis.mkEntry
               (Redis.RHash [("user_id", "test_user"); ("content", "");
                             ("metadata", "{}");
                             ("created_at", "2024-01-01T12:00:00.000001")])
               (Some 3600%Z)).
Proof.
  vm_compute. split; reflexivity.
Qed.

(** ** Which metadata wins in the long-term tier *)

Section Precedence.

Import MemoryManager StoreFacts ManagerFacts PyFacts.







End Precedence.



(** The record stored by [alice] with [bob] in its metadata is found by the
    search of [bob], not by the search of [alice], and removed by the purge
    of [bob]. *)
Example stored_for_alice_owned_by_bob :
  let w := Scenario.after
             (MemoryManager.store_memory []
                [(KStr "user_id", VStr "alice"); (KStr "content", VStr "hi");
                 (KStr "metadata", VDict [(KStr "user_id", VStr "bob")])])
             Scenario.fresh in
  Scenario.found (MemoryManager.search_memories "alice" "hi" 5 w) = []
  /\ List.length (Scenario.found (MemoryManager.search_memories "bob" "hi" 5 w)) = 1
  /\ Chroma.docs (chroma (Scenario.after (LongTermMemory.purge "alice") w))
     = Chroma.docs (chroma w)
  /\ Chroma.docs (chroma (Scenario.after (LongTermMemory.purge "bob") w)) = [].
Proof.
  vm_compute. repeat split; reflexivity.
Qed.

(** ** Lookup order of [get_memory] *)

Section LookupOrder.

Import MemoryManager StoreFacts.

Lemma loads_empty_object : Json.loads "{}" = Ok (VDict []).
Proof. reflexivity. Qed.

(** A hash that is in Redis always yields a record, provided its metadata
    field, when the client sees it, is JSON. *)
Lemma from_short_term_reply s fs :
  (forall js, Redis.lookup "metadata" fs = Some js -> exists v, Json.loads js = Ok v) ->
  exists r,
    from_short_term
      (map (fun fv : string * string =>
              (Redis.reply_key s (fst fv), Redis.reply s (snd fv))) fs) = Ok r
    /\ dget (KStr "source") r = Some (VStr "short_term").
Proof.
  intros Hj. unfold from_short_term, dget_or, Redis.reply_key, Redis.reply.
  destruct (Redis.decode_responses s).
  - rewrite !dget_bytes_in_str. cbn [py_decode json_loads].
    rewrite loads_empty_object. eexists. split; reflexivity.
  - rewrite !dget_reply_bytes.
    destruct (Redis.lookup "content" fs); cbn [option_map py_decode];
      destruct (Redis.lookup "metadata" fs) as [js|] eqn:Em;
      cbn [option_map py_decode json_loads];
      try (destruct (Hj js eq_refl) as [v ->]);
      try rewrite loads_empty_object;
      destruct (Redis.lookup "created_at" fs); cbn [option_map py_decode];
      eexists; split; reflexivity.
Qed.

Lemma get_memory_total id w : exists o w', get_memory id w = (Ok o, w').
Proof.
  unfold get_memory, try_except.
  match goal with |- context [match ?c w with _ => _ end] => destruct (c w) as [[o|e] w1] end.
  - eauto.
  - unfold bind, emit, ret. eauto.
Qed.

Lemma no_id_no_hit id c :
  Chroma.has_id id c = false ->
  filter (fun d => String.eqb (Chroma.doc_id d) id) (Chroma.docs c) = [].
Proof.
  unfold Chroma.has_id. induction (Chroma.docs c) as [|d l IH]; simpl; [reflexivity|].
  destruct (String.eqb (Chroma.doc_id d) id); simpl; [discriminate|assumption].
Qed.

End LookupOrder.

(** C4. Lookup order and tagging of [get_memory]: it never raises; Redis is
    asked first, and a hash found there is returned tagged [short_term]
    without the long-term tier being consulted; when Redis has no hash for
    the identifier, the document ChromaDB has for it is returned tagged
    [long_term]; when neither has it the result is [None]. *)
Theorem get_memory_lookup_order :
  forall (w : world) (id : string),
    (exists o w', MemoryManager.get_memory id w = (Ok o, w'))
    /\ (forall fs ttl,
          hd false (Redis.faults (redis w)) = false ->
          Redis.lookup ("memory:" ++ id) (Redis.keyspace (redis w))
          = Some (Redis.mkEntry (Redis.RHash fs) ttl) ->
          fs <> [] ->
          (forall js, Redis.lookup "metadata" fs = Some js ->
                      exists v, Json.loads js = Ok v) ->
          exists r w',
            MemoryManager.get_memory id w = (Ok (Some r), w')
            /\ dget (KStr "source") r = Some (VStr "short_term")
            /\ chroma w' = chroma w)
    /\ (forall d rest m,
          hd false (Redis.faults (redis w)) = false ->
          Redis.lookup ("memory:" ++ id) (Redis.keyspace (redis w)) = None ->
          hd false (Chroma.faults (chroma w)) = false ->
          filter (fun x => String.eqb (Chroma.doc_id x) id) (Chroma.docs (chroma w))
          = d :: rest ->
          Chroma.doc_meta d = Some m ->
          exists r w',
            MemoryManager.get_memory id w = (Ok (Some r), w')
            /\ dget (KStr "source") r = Some (VStr "long_term")
            /\ dget (KStr "content") r = Some (VStr (Chroma.doc_text d)))
    /\ (hd false (Redis.faults (redis w)) = false ->
        Redis.lookup ("memory:" ++ id) (Redis.keyspace (redis w)) = None ->
        hd false (Chroma.faults (chroma w)) = false ->
        Chroma.has_id id (chroma w) = false ->
        exists w', MemoryManager.get_memory id w = (Ok None, w')).
Proof.
  intros w id. split; [apply get_memory_total|]. split; [|split].
  - intros fs ttl Hf Hl Hne Hj.
    unfold MemoryManager.get_memory, try_except, bind at 1, on_redis at 1,
      Redis.hgetall, Redis.connect.
    rewrite Hf. cbn [Redis.keyspace Redis.decode_responses Redis.faults]. rewrite Hl.
    match goal with
    | |- context [MemoryManager.from_short_term ?x] =>
        destruct (from_short_term_reply
                    (Redis.mkServer (Redis.decode_responses (redis w))
                       (Redis.keyspace (redis w)) (tl (Redis.faults (redis w))))
                    fs Hj) as (r & Hr & Hs)
    end.
    destruct fs as [|fv fs']; [congruence|].
    set (fs := fv :: fs') in *.
    change (map ?f fs) with (f fv :: map f fs') at 1. cbv iota beta.
    change (?f fv :: map ?f fs') with (map f fs).
    unfold bind, lift, ret. rewrite Hr.
    exists r. eexists. split; [reflexivity|]. split; [exact Hs|reflexivity].
  - intros d rest m Hf Hl Hcf Hhit Hm.
    unfold MemoryManager.get_memory, try_except, bind at 1, on_redis at 1,
      Redis.hgetall, Redis.connect.
    rewrite Hf. cbn [Redis.keyspace Redis.decode_responses Redis.faults]. rewrite Hl.
    unfold bind at 1, on_chroma at 1, Chroma.get_ids, Chroma.connect.
    cbn [redis chroma clock ticks log Chroma.docs Chroma.faults Chroma.distance].
    rewrite Hcf, Hhit.
    unfold bind, now, tick, lift, ret, MemoryManager.from_long_term. rewrite Hm.
    do 2 eexists. split; [reflexivity|]. split; reflexivity.
  - intros Hf Hl Hcf Hno.
    unfold MemoryManager.get_memory, try_except, bind at 1, on_redis at 1,
      Redis.hgetall, Redis.connect.
    rewrite Hf. cbn [Redis.keyspace Redis.decode_responses Redis.faults]. rewrite Hl.
    unfold bind at 1, on_chroma at 1, Chroma.get_ids, Chroma.connect.
    cbn [redis chroma clock ticks log Chroma.docs Chroma.faults Chroma.distance].
    rewrite Hcf, (no_id_no_hit _ _ Hno).
    unfold ret. eauto.
Qed.

(** A record that is in both tiers is served from Redis. *)
Lemma get_memory_lookup_order_witness :
  exists r w',
    MemoryManager.get_memory "u1_2024-01-01T12:00:00" Scenario.stored_u1
    = (Ok (Some r), w')
    /\ dget (KStr "source") r = Some (VStr "short_term")
    /\ chroma w' = chroma Scenario.stored_u1.
Proof.
  eapply (proj1 (proj2 (get_memory_lookup_order Scenario.stored_u1
                          "u1_2024-01-01T12:00:00"))).
  - reflexivity.
  - lazy. reflexivity.
  - discriminate.
  - intros js H. vm_compute in H. inversion H; subst js.
    eexists. vm_compute. reflexivity.
Defined.

(** A record that only ChromaDB has, and an identifier nobody has. *)
Example get_memory_long_term_and_absent :
  fst (MemoryManager.get_memory "bob_1" Scenario.two_owners)
  = Ok (Some [(KStr "content", VStr "gardening");
              (KStr "metadata", VDict [(KStr "user_id", VStr "bob")]);
              (KStr "created_at", VStr "2024-01-01T12:00:00");
              (KStr "source", VStr "long_term")])
  /\ fst (MemoryManager.get_memory "nobody" Scenario.two_owners) = Ok None.
Proof.
  vm_compute. split; reflexivity.
Qed.

(** ** [retrieve_context] *)

Section RetrieveContext.

Import MemoryManager StoreFacts.

(** [hgetall] changes nothing but the fault schedule. *)
Lemma hgetall_frame name w r w1 :
  on_redis (Redis.hgetall name) w = (r, w1) ->
  Redis.keyspace (redis w1) = Redis.keyspace (redis w)
  /\ Redis.decode_responses (redis w1) = Redis.decode_responses (redis w)
  /\ chroma w1 = chroma w /\ clock w1 = clock w /\ ticks w1 = ticks w
  /\ log w1 = log w.
Proof.
  unfold on_redis, Redis.hgetall, Redis.connect.
  destruct (hd false (Redis.faults (redis w))).
  - intros [= _ <-]. cbn. auto 10.
  - cbn [Redis.keyspace Redis.decode_responses Redis.faults].
    destruct (Redis.lookup name (Redis.keyspace (redis w))) as [[[fs|l] ttl]|];
      intros [= _ <-]; cbn; auto 10.
Qed.





(** With a client that leaves replies undecoded nothing is ever kept. *)
Lemma collect_recent_bytes user keys : forall acc w,
  Redis.decode_responses (redis w) = false ->
  fst (collect_recent user keys acc w) = acc.
Proof.
  induction keys as [|key keys IH]; intros acc w Hd; [reflexivity|].
  cbn [collect_recent]. unfold bind, lift.
  destruct (Redis.encode key) as [name|e]; [|reflexivity].
  destruct (on_redis (Redis.hgetall name) w) as [[memory|e] w1] eqn:Eh; [|reflexivity].
  destruct (hgetall_frame _ _ Eh) as (_ & Hd1 & _).
  assert (Hkeep : match memory with
                  | [] => false
                  | _ => pyval_eqb (dget_or (KStr "user_id") VNone memory) (VStr user)
                  end = false).
  { revert Eh. unfold on_redis, Redis.hgetall, Redis.connect.
    destruct (hd false (Redis.faults (redis w))); [discriminate|].
    cbn [Redis.keyspace Redis.decode_responses Redis.faults].
    destruct (Redis.lookup name (Redis.keyspace (redis w))) as [[[fs|l] ttl]|];
      try discriminate; intros [= <- _]; [|reflexivity].
    unfold Redis.reply_key, Redis.reply. cbn [Redis.decode_responses]. rewrite Hd.
    destruct fs as [|fv fs']; [reflexivity|].
    unfold dget_or. rewrite dget_str_in_bytes. reflexivity. }
  rewrite Hkeep. apply IH. congruence.
Qed.

Lemma keys_frame w keys w0 :
  on_redis (Redis.keys "memory:") w = (Ok keys, w0) ->
  Redis.keyspace (redis w0) = Redis.keyspace (redis w)
  /\ Redis.decode_responses (redis w0) = Redis.decode_responses (redis w)
  /\ forall key name, In key keys -> Redis.encode key = Ok name ->
                      String.prefix "memory:" name = true.
Proof.
  unfold on_redis, Redis.keys, Redis.connect.
  destruct (hd false (Redis.faults (redis w))); [discriminate|].
  intros [= <- <-]. cbn. split; [reflexivity|]. split; [reflexivity|].
  intros key name Hin He. apply in_map_iff in Hin.
  destruct Hin as (k & <- & Hk). apply filter_In in Hk.
  unfold Redis.reply in He. cbn in He.
  destruct (Redis.decode_responses (redis w)); inversion He; subst; tauto.
Qed.

Lemma last_n_incl {A} n (l : list A) : incl (last_n n l) l.
Proof.
  unfold last_n. destruct n; [apply incl_refl|].
  intros x Hx. rewrite <- (firstn_skipn (List.length l - S n) l).
  apply in_or_app. now right.
Qed.


(** *** The descending sort *)









End RetrieveContext.



(** With the default client, which hands back [bytes], no hash ever matches
    the owner: the context is empty whatever was stored. *)
Lemma retrieve_context_bytes_client user limit w :
  Redis.decode_responses (redis w) = false ->
  fst (MemoryManager.retrieve_context user limit w) = Ok "".
Proof.
  intros Hd. unfold MemoryManager.retrieve_context.
  destruct (on_redis (Redis.keys "memory:") w) as [[keys|e] w0] eqn:Ek.
  - destruct (keys_frame _ Ek) as (_ & Hd0 & _).
    pose proof (@collect_recent_bytes user (MemoryManager.last_n limit keys) []
                  w0 (eq_trans Hd0 Hd)) as Hc.
    destruct (MemoryManager.collect_recent user (MemoryManager.last_n limit keys) [] w0)
      as [recent w1].
    cbn in Hc. subst recent. reflexivity.
  - reflexivity.
Qed.


(** ** [get_chat_context] *)

(** C8 fails on the code: the collection is asked for [limit * 2] documents
    of the owner, which it reports in the order they were added, and only
    these are sorted.  With three stored messages and [limit = 1] the answer
    is the second message, although the third is the most recent one. *)
Lemma get_chat_context_misses_newest :
  fst (MemoryManager.get_chat_context "u1" 1 Scenario.three_of_u1)
  = Ok ["Second message"]
  /\ map (fun d => (Chroma.doc_text d,
                    match Chroma.doc_meta d with
                    | Some m => dget (KStr "created_at") m
                    | None => None
                    end))
       (filter (Chroma.owned_by (VStr "u1")) (Chroma.docs (chroma Scenario.three_of_u1)))
     = [("First message", Some (VStr "2024-01-01T12:00:00.000002"));
        ("Second message", Some (VStr "2024-01-01T12:00:00.000005"));
        ("Third message", Some (VStr "2024-01-01T12:00:00.000008"))].
Proof.
  vm_compute. split; reflexivity.
Qed.
